(** * Research workflow: a shallow embedding of [agents.py] and [main.py]

    Both source files carry the same five-stage pipeline
    (query_analyser, search_executor, content_synthesiser,
    follow_up_generator, error) wired into a LangGraph [StateGraph].
    They differ in a handful of literals (prompts, slices, the search
    limit [k]) and in how [run_research_workflow] drives the graph.

    The collaborators (the chat model, the Serper HTTP endpoint, the
    pydantic output parsers) are external; they are modelled as oracles
    bundled in a [World].  Every call to the chat model or to the HTTP
    endpoint is recorded in a trace, so that the number of external calls of
    a run can be counted.  Console output ([print]) is not modelled. *)

From Stdlib Require Import List String Ascii ZArith Lia Bool PeanoNat.
From Stdlib Require Import DecimalString.
Import ListNotations.
Open Scope string_scope.

Set Implicit Arguments.
Set Warnings "-register-all".

(** ** Python values and exceptions *)

(** The value [resp.json()] returns: what [json.loads] builds.  A [PyDict]
    lists the items of the dict in insertion order, keys distinct. *)
Inductive pyval : Type :=
| PyNone
| PyBool (b : bool)
| PyInt (z : Z)
| PyFloat (literal : string)
| PyStr (s : string)
| PyList (items : list pyval)
| PyDict (items : list (string * pyval)).

Definition pydict : Type := list (string * pyval).

(** An exception: its class and what [str(e)] gives. *)
Record exn : Type := Exn { exn_class : string; exn_str : string }.

Definition type_name (v : pyval) : string :=
  match v with
  | PyNone => "NoneType"
  | PyBool _ => "bool"
  | PyInt _ => "int"
  | PyFloat _ => "float"
  | PyStr _ => "str"
  | PyList _ => "list"
  | PyDict _ => "dict"
  end.

Definition AttributeError (v : pyval) (attr : string) : exn :=
  Exn "AttributeError"
      ("'" ++ type_name v ++ "' object has no attribute '" ++ attr ++ "'").

Definition NotSubscriptable (v : pyval) : exn :=
  Exn "TypeError" ("'" ++ type_name v ++ "' object is not subscriptable").

Definition KeyError (key : string) : exn :=
  Exn "KeyError" ("'" ++ key ++ "'").

(** [d.get(key)] and [d[key]] on a dict. *)
Fixpoint dict_find (key : string) (d : pydict) : option pyval :=
  match d with
  | [] => None
  | (k, v) :: d' => if String.eqb k key then Some v else dict_find key d'
  end.

Definition dict_get (key : string) (d : pydict) : pyval :=
  match dict_find key d with
  | Some v => v
  | None => PyNone
  end.

Definition dict_item (key : string) (d : pydict) : exn + pyval :=
  match dict_find key d with
  | Some v => inr v
  | None => inl (KeyError key)
  end.

(** [l[:k]]: a negative bound counts from the end of the list. *)
Definition py_slice_to {A : Type} (k : Z) (l : list A) : list A :=
  if (0 <=? k)%Z then firstn (Z.to_nat k) l
  else firstn (List.length l - Z.to_nat (- k)) l.

(** The characters of a Python string, one [PyStr] per character, as
    iterating over it yields them. *)
Fixpoint str_chars (s : string) : list pyval :=
  match s with
  | EmptyString => []
  | String c s' => PyStr (String c EmptyString) :: str_chars s'
  end.

(** ** External calls, traces and the effect monad *)

(** One external call: [LLM.invoke([SystemMessage, HumanMessage])] or
    [requests.post(ENDPOINT, json={"q": q, "num": k})]. *)
Inductive call : Type :=
| LLMCall (system human : string)
| SearchCall (q : string) (num : Z).

(** Calls made so far, most recent first. *)
Definition trace : Type := list call.

(** What the HTTP endpoint answered: the status code and what [resp.json()]
    gives (it raises when the body is not JSON). *)
Record Response : Type := {
  status_code : Z;
  json : exn + pyval
}.

Record SearchQuery : Type := { query : string; query_rationale : string }.

Record ResearchSummary : Type := {
  summary : string;
  key_insights : list string;
  sources_consulted : list string
}.

Record FollowUpQuestion : Type := { question : string; question_rationale : string }.

(** The collaborators.  Replies of the chat model and of the endpoint may
    depend on everything that was called before; the parsers of
    [PydanticOutputParser] and Python's [str] are functions. *)
Record World : Type := {
  llm_reply : trace -> string -> string -> exn + string;
  http_reply : trace -> string -> Z -> exn + Response;
  http_error : Z -> exn;
  parse_SearchQueries : string -> exn + list SearchQuery;
  parse_ResearchSummary : string -> exn + ResearchSummary;
  parse_FollowUpQuestions : string -> exn + list FollowUpQuestion;
  format_SearchQueries : string;
  format_ResearchSummary : string;
  format_FollowUpQuestions : string;
  py_str : pyval -> string
}.

(** A computation either raises or returns, and extends the trace. *)
Definition M (A : Type) : Type := trace -> (exn + A) * trace.

Definition ret {A : Type} (a : A) : M A := fun t => (inr a, t).

Definition raise {A : Type} (e : exn) : M A := fun t => (inl e, t).

Definition bind {A B : Type} (m : M A) (f : A -> M B) : M B :=
  fun t =>
    match m t with
    | (inr a, t') => f a t'
    | (inl e, t') => (inl e, t')
    end.

Definition lift {A : Type} (r : exn + A) : M A := fun t => (r, t).

(** [try: body except Exception as e: handler(e)] *)
Definition try_except {A : Type} (body : M A) (handler : exn -> M A) : M A :=
  fun t =>
    match body t with
    | (inr a, t') => (inr a, t')
    | (inl e, t') => handler e t'
    end.

Declare Scope py_scope.
Notation "x <- m ;; k" := (bind m (fun x => k))
  (at level 61, m at next level, right associativity) : py_scope.
Open Scope py_scope.

Definition nl : string := String (ascii_of_nat 10) EmptyString.


(** [LLM.invoke(msg).content] *)
Definition LLM_invoke (W : World) (system human : string) : M string :=
  fun t => (llm_reply W t system human, LLMCall system human :: t).

(** [requests.post(self.ENDPOINT, headers=self.headers, json=payload, timeout=10)] *)
Definition requests_post (W : World) (q : string) (num : Z) : M Response :=
  fun t => (http_reply W t q num, SearchCall q num :: t).

(** [resp.raise_for_status()]: an HTTPError for a 4xx or 5xx status. *)
Definition raise_for_status (W : World) (resp : Response) : M unit :=
  if ((400 <=? status_code resp) && (status_code resp <? 600))%Z
  then raise (http_error W (status_code resp))
  else ret tt.

(** ** SerperSearchTool *)

(** The tool is built once at import ([SerperSearchTool(k=10)] in
    [agents.py], [k=5] in [main.py]), which needs SERPER_API_KEY; the record
    keeps the limit. *)
Record SerperSearchTool : Type := { k : Z }.

(** [data.get("organic", [])[: self.k]], the sequence the loop iterates
    over.  [get] exists on a dict only, and only lists and strings can be
    sliced: slicing a dict raises (TypeError before Python 3.12, KeyError
    since), as does subscripting [None], a bool or a number.  (A string is
    held as its bytes, so [str_chars] yields one item per byte.) *)
Definition organic_slice (self : SerperSearchTool) (data : pyval) : exn + list pyval :=
  match data with
  | PyDict d =>
      match match dict_find "organic" d with Some v => v | None => PyList [] end with
      | PyList items => inr (py_slice_to (k self) items)
      | PyStr s => inr (py_slice_to (k self) (str_chars s))
      | PyDict _ => inl (Exn "TypeError" "unhashable type: 'slice'")
      | v => inl (NotSubscriptable v)
      end
  | _ => inl (AttributeError data "get")
  end.

(** The dict literal appended for one item. *)
Definition entry_of (d : pydict) : pydict :=
  [("title", dict_get "title" d);
   ("url", dict_get "link" d);
   ("content", dict_get "snippet" d)].

(** [item.get] needs a dict. *)
Definition result_entry (item : pyval) : exn + pydict :=
  match item with
  | PyDict d => inr (entry_of d)
  | _ => inl (AttributeError item "get")
  end.

(** [for item in ...: results.append({...})] *)
Fixpoint append_results (results : list pydict) (items : list pyval) : exn + list pydict :=
  match items with
  | [] => inr results
  | item :: rest =>
      match result_entry item with
      | inl e => inl e
      | inr r => append_results (results ++ [r])%list rest
      end
  end.

(** What [invoke] does with the decoded body. *)
Definition read_results (self : SerperSearchTool) (data : pyval) : exn + list pydict :=
  match organic_slice self data with
  | inl e => inl e
  | inr items => append_results [] items
  end.

Definition SerperSearchTool_invoke (W : World) (self : SerperSearchTool) (q : string)
  : M (list pydict) :=
  resp <- requests_post W q (k self) ;;
  _ <- raise_for_status W resp ;;
  data <- lift (json resp) ;;
  lift (read_results self data).

(** ** ResearchState *)

(** [run_research_workflow] creates the dict with all seven keys and every
    stage returns [{**state, ...}], so no key is ever absent and
    [state.get("errors", [])] is [state["errors"]]; the dict is held as a
    record.  Stages build new dicts and new lists ([+], a fresh [results]),
    none is updated in place. *)
Record ResearchState : Type := {
  user_query : string;
  search_queries : list string;
  search_results : list pydict;
  research_summary : string;
  follow_up_questions : list string;
  current_step : string;
  errors : list string
}.

Definition set_search_queries (s : ResearchState) (v : list string) : ResearchState :=
  {| user_query := user_query s; search_queries := v;
     search_results := search_results s; research_summary := research_summary s;
     follow_up_questions := follow_up_questions s; current_step := current_step s;
     errors := errors s |}.

Definition set_search_results (s : ResearchState) (v : list pydict) : ResearchState :=
  {| user_query := user_query s; search_queries := search_queries s;
     search_results := v; research_summary := research_summary s;
     follow_up_questions := follow_up_questions s; current_step := current_step s;
     errors := errors s |}.

Definition set_research_summary (s : ResearchState) (v : string) : ResearchState :=
  {| user_query := user_query s; search_queries := search_queries s;
     search_results := search_results s; research_summary := v;
     follow_up_questions := follow_up_questions s; current_step := current_step s;
     errors := errors s |}.

Definition set_follow_up_questions (s : ResearchState) (v : list string) : ResearchState :=
  {| user_query := user_query s; search_queries := search_queries s;
     search_results := search_results s; research_summary := research_summary s;
     follow_up_questions := v; current_step := current_step s;
     errors := errors s |}.

Definition set_current_step (s : ResearchState) (v : string) : ResearchState :=
  {| user_query := user_query s; search_queries := search_queries s;
     search_results := search_results s; research_summary := research_summary s;
     follow_up_questions := follow_up_questions s; current_step := v;
     errors := errors s |}.

Definition set_errors (s : ResearchState) (v : list string) : ResearchState :=
  {| user_query := user_query s; search_queries := search_queries s;
     search_results := search_results s; research_summary := research_summary s;
     follow_up_questions := follow_up_questions s; current_step := current_step s;
     errors := v |}.

(** The [except] branch every stage shares:
    [{**state, "errors": state.get("errors", []) + [f"<stage>: {e}"], "current_step": "error"}] *)
Definition stage_failed (stage : string) (s : ResearchState) (e : exn) : ResearchState :=
  set_current_step
    (set_errors s (List.app (errors s) [stage ++ ": " ++ exn_str e]))
    "error".

(** ** The LangGraph state graph

    A [StateGraph] holds the nodes, and for each node with conditional edges
    the routing function together with its mapping from routing values to
    node names.  Every key of [ResearchState] is a last-value channel and
    every node returns the whole state, so the state after a node is the dict
    the node returned. *)
Definition node_fn : Type := ResearchState -> M ResearchState.

Record Branch : Type := {
  path : ResearchState -> string;
  ends : list (string * string)
}.

Record StateGraph : Type := {
  nodes : list (string * node_fn);
  branches : list (string * Branch);
  entry_point : option string
}.

Definition END : string := "__end__".

Fixpoint assoc {A : Type} (key : string) (l : list (string * A)) : option A :=
  match l with
  | [] => None
  | (k, v) :: l' => if String.eqb k key then Some v else assoc key l'
  end.

Definition new_graph : StateGraph :=
  {| nodes := []; branches := []; entry_point := None |}.

Definition add_node (name : string) (f : node_fn) (g : StateGraph) : StateGraph :=
  {| nodes := (nodes g ++ [(name, f)])%list;
     branches := branches g;
     entry_point := entry_point g |}.

Definition add_conditional_edges (source : string) (route : ResearchState -> string)
    (mapping : list (string * string)) (g : StateGraph) : StateGraph :=
  {| nodes := nodes g;
     branches := (branches g ++ [(source, {| path := route; ends := mapping |})])%list;
     entry_point := entry_point g |}.

Definition set_entry_point (name : string) (g : StateGraph) : StateGraph :=
  {| nodes := nodes g; branches := branches g; entry_point := Some name |}.

(** [g.compile()] validates the graph (every edge target is a node, an entry
    point is set) and wraps it for execution; the graph is the same. *)
Definition compile (g : StateGraph) : StateGraph := g.

(** Where the run goes after node [name] returned [s]: [None] is [END].  A
    node without outgoing edges ends the run; a routing value outside the
    mapping is a KeyError. *)
Definition next_node (g : StateGraph) (name : string) (s : ResearchState)
  : exn + option string :=
  match assoc name (branches g) with
  | None => inr None
  | Some b =>
      match assoc (path b s) (ends b) with
      | None => inl (KeyError (path b s))
      | Some target => inr (if String.eqb target END then None else Some target)
      end
  end.

Definition GraphRecursionError : exn :=
  Exn "GraphRecursionError" "Recursion limit reached without hitting a stop condition.".

(** One execution of the graph from node [name]: run the node, record the
    update, follow the edge; at most [limit] nodes are run.  An exception
    leaving a node leaves the execution. *)
Fixpoint run_from (limit : nat) (g : StateGraph) (name : string) (s : ResearchState)
    (updates : list (string * ResearchState))
  : M (ResearchState * list (string * ResearchState)) :=
  match limit with
  | O => raise GraphRecursionError
  | S limit' =>
      match assoc name (nodes g) with
      | None => raise (KeyError name)
      | Some f =>
          s' <- f s ;;
          let updates' := (updates ++ [(name, s')])%list in
          match next_node g name s' with
          | inl e => raise e
          | inr None => ret (s', updates')
          | inr (Some target) => run_from limit' g target s' updates'
          end
      end
  end.

Definition recursion_limit : nat := 25.

Definition execute (g : StateGraph) (input : ResearchState)
  : M (ResearchState * list (string * ResearchState)) :=
  match entry_point g with
  | None => raise (Exn "ValueError" "Graph must have an entrypoint")
  | Some name => run_from recursion_limit g name input []
  end.

(** [wf.invoke(input)]: one execution, the final state. *)
Definition invoke (g : StateGraph) (input : ResearchState) : M ResearchState :=
  r <- execute g input ;; ret (fst r).

(** [wf.stream(input, stream_mode="updates")], consumed to its end: one
    execution, the updates [{node_name: returned dict}] in order. *)
Definition stream (g : StateGraph) (input : ResearchState)
  : M (list (string * ResearchState)) :=
  r <- execute g input ;; ret (snd r).

(** ** The stages

    The two files share the stage code up to the literals gathered here:
    the system message and the extra request line of the two list-producing
    stages, the slice applied to the parsed list ([None] where the source
    has no slice) and the module-level [search_tool]. *)
Record Settings : Type := {
  query_system : string;
  query_request : string;
  query_slice : option Z;
  follow_up_system : string;
  follow_up_request : string;
  follow_up_slice : option Z;
  search_tool : SerperSearchTool
}.

Definition sliced {A : Type} (bound : option Z) (l : list A) : list A :=
  match bound with
  | Some n => py_slice_to n l
  | None => l
  end.

(** [f"{n}"] for a natural number. *)
Definition decimal (n : nat) : string := NilEmpty.string_of_uint (Nat.to_uint n).

Module Pipeline.

Section Stages.

Variable W : World.
Variable cfg : Settings.

(** The [try] block of [query_analyser]. *)
Definition query_analyser_try (s : ResearchState) (system prompt : string)
  : M ResearchState :=
  content <- LLM_invoke W system prompt ;;
  parsed <- lift (parse_SearchQueries W content) ;;
  let queries := sliced (query_slice cfg) parsed in
  ret (set_current_step (set_search_queries s (map query queries)) "search_executor").

Definition query_analyser_prompt (s : ResearchState) : string :=
  "User question: " ++ user_query s ++ nl ++ nl
  ++ query_request cfg
  ++ format_SearchQueries W.

Definition query_analyser (s : ResearchState) : M ResearchState :=
  let system := query_system cfg in
  let prompt := query_analyser_prompt s in
  try_except
    (query_analyser_try s system prompt)
    (fun e => ret (stage_failed "query_analyser" s e)).

(** [for q in state["search_queries"]: results.extend(search_tool.invoke(q))] *)
Fixpoint search_each (results : list pydict) (qs : list string) : M (list pydict) :=
  match qs with
  | [] => ret results
  | q :: rest =>
      found <- SerperSearchTool_invoke W (search_tool cfg) q ;;
      search_each (results ++ found)%list rest
  end.

(** The [try] block of [search_executor]. *)
Definition search_executor_try (s : ResearchState) : M ResearchState :=
  results <- search_each [] (search_queries s) ;;
  ret (set_current_step (set_search_results s results) "content_synthesiser").

Definition search_executor (s : ResearchState) : M ResearchState :=
  try_except
    (search_executor_try s)
    (fun e => ret (stage_failed "search_executor" s e)).

(** [f"Source {i+1}: {r['title']}\nURL: {r['url']}\nContent: {r['content']}\n"];
    a missing key raises KeyError. *)
Definition format_source (i : nat) (r : pydict) : exn + string :=
  match dict_item "title" r with
  | inl e => inl e
  | inr title =>
      match dict_item "url" r with
      | inl e => inl e
      | inr url =>
          match dict_item "content" r with
          | inl e => inl e
          | inr content =>
              inr ("Source " ++ decimal (i + 1) ++ ": " ++ py_str W title ++ nl
                   ++ "URL: " ++ py_str W url ++ nl
                   ++ "Content: " ++ py_str W content ++ nl)
          end
      end
  end.

(** The generator over [enumerate(state["search_results"])], from index [i]. *)
Fixpoint format_sources (i : nat) (rs : list pydict) : exn + list string :=
  match rs with
  | [] => inr []
  | r :: rest =>
      match format_source i r with
      | inl e => inl e
      | inr line =>
          match format_sources (S i) rest with
          | inl e => inl e
          | inr lines => inr (line :: lines)
          end
      end
  end.

Definition content_synthesiser_system : string :=
  "You synthesise multiple sources into a clear, cited answer. Highlight key insights.".

(** The [try] block of [content_synthesiser]. *)
Definition content_synthesiser_try (s : ResearchState) (system prompt : string)
  : M ResearchState :=
  content <- LLM_invoke W system prompt ;;
  parsed <- lift (parse_ResearchSummary W content) ;;
  ret (set_current_step (set_research_summary s (summary parsed)) "follow_up_generator").

Definition content_synthesiser_prompt (s : ResearchState) (formatted : string) : string :=
  "User question: " ++ user_query s ++ nl ++ nl
  ++ "Search results:" ++ nl ++ formatted ++ nl ++ nl
  ++ format_ResearchSummary W.

(** The sources are formatted before the [try]: an exception there is not
    caught by the stage. *)
Definition content_synthesiser (s : ResearchState) : M ResearchState :=
  let system := content_synthesiser_system in
  lines <- lift (format_sources 0 (search_results s)) ;;
  let formatted := String.concat nl lines in
  let prompt := content_synthesiser_prompt s formatted in
  try_except
    (content_synthesiser_try s system prompt)
    (fun e => ret (stage_failed "content_synthesiser" s e)).

(** The [try] block of [follow_up_generator]. *)
Definition follow_up_generator_try (s : ResearchState) (system prompt : string)
  : M ResearchState :=
  content <- LLM_invoke W system prompt ;;
  parsed <- lift (parse_FollowUpQuestions W content) ;;
  let questions := sliced (follow_up_slice cfg) parsed in
  ret (set_current_step (set_follow_up_questions s (map question questions)) "complete").

Definition follow_up_generator_prompt (s : ResearchState) : string :=
  "Original question: " ++ user_query s ++ nl ++ nl
  ++ "Research summary: " ++ research_summary s ++ nl ++ nl
  ++ follow_up_request cfg
  ++ format_FollowUpQuestions W.

Definition follow_up_generator (s : ResearchState) : M ResearchState :=
  let system := follow_up_system cfg in
  let prompt := follow_up_generator_prompt s in
  try_except
    (follow_up_generator_try s system prompt)
    (fun e => ret (stage_failed "follow_up_generator" s e)).

(** [error_handler] prints the errors and returns
    [{**state, "current_step": "complete"}]. *)
Definition error_handler (s : ResearchState) : M ResearchState :=
  ret (set_current_step s "complete").

Definition route_current_step : ResearchState -> string := fun s => current_step s.

Definition build_graph : StateGraph :=
  let g := new_graph in
  let g := add_node "query_analyser" (query_analyser) g in
  let g := add_node "search_executor" (search_executor) g in
  let g := add_node "content_synthesiser" (content_synthesiser) g in
  let g := add_node "follow_up_generator" (follow_up_generator) g in
  let g := add_node "error" error_handler g in
  let g := add_conditional_edges "query_analyser" route_current_step
             [("search_executor", "search_executor"); ("error", "error")] g in
  let g := add_conditional_edges "search_executor" route_current_step
             [("content_synthesiser", "content_synthesiser"); ("error", "error")] g in
  let g := add_conditional_edges "content_synthesiser" route_current_step
             [("follow_up_generator", "follow_up_generator"); ("error", "error")] g in
  let g := add_conditional_edges "follow_up_generator" route_current_step
             [("complete", END); ("error", "error")] g in
  let g := add_conditional_edges "error" route_current_step [("complete", END)] g in
  let g := set_entry_point "query_analyser" g in
  compile g.

End Stages.

End Pipeline.

(** The initial state both [run_research_workflow] build. *)
Definition initial_state (question : string) : ResearchState :=
  {| user_query := question;
     search_queries := [];
     search_results := [];
     research_summary := "";
     follow_up_questions := [];
     current_step := "query_analyser";
     errors := [] |}.

(** The dict [run_research_workflow] returns; [progress] is the key only
    [main.py] adds. *)
Record Report : Type := {
  original_query : string;
  report_search_queries : list string;
  report_research_summary : string;
  report_follow_up_questions : list string;
  report_errors : list string;
  progress : option (list string)
}.

(** ** agents.py *)
Module Agents.

Definition settings : Settings :=
  {| query_system :=
       "You break down research questions into 3‑5 diverse, precise web‑search queries. Cover different angles of the topic.";
     query_request := "";
     query_slice := None;
     follow_up_system :=
       "Generate 2‑3 thoughtful follow‑up questions that would deepen the user's understanding or cover uncovered aspects.";
     follow_up_request := "";
     follow_up_slice := None;
     search_tool := {| k := 10 |} |}.

Definition query_analyser (W : World) : node_fn := Pipeline.query_analyser W settings.
Definition search_executor (W : World) : node_fn := Pipeline.search_executor W settings.
Definition content_synthesiser (W : World) : node_fn := Pipeline.content_synthesiser W.
Definition follow_up_generator (W : World) : node_fn := Pipeline.follow_up_generator W settings.
Definition error_handler : node_fn := Pipeline.error_handler.

Definition build_graph (W : World) : StateGraph := Pipeline.build_graph W settings.

(** The graph is executed twice: once by [wf.stream], whose updates are only
    printed, and once by [wf.invoke], whose state is returned. *)
Definition run_research_workflow (W : World) (question : string) : M Report :=
  let initial := initial_state question in
  let wf := build_graph W in
  _ <- stream wf initial ;;
  final_state <- invoke wf initial ;;
  ret {| original_query := user_query final_state;
         report_search_queries := search_queries final_state;
         report_research_summary := research_summary final_state;
         report_follow_up_questions := follow_up_questions final_state;
         report_errors := errors final_state;
         progress := None |}.

End Agents.

(** ** main.py *)
Module Main.

Definition settings : Settings :=
  {| query_system :=
       "You break down research questions into EXACTLY 3 diverse, precise web-search queries. Cover the most important angles of the topic. Keep in mind we are in 2025 , so use the latest information and trends. Each query should be concise, relevant, and designed to yield useful search results. Each query should have a rationale explaining its importance. Do not use 2025 in the query unless it is absolutely necessary.";
     query_request := "Generate EXACTLY 3 search queries." ++ nl ++ nl;
     query_slice := Some 3%Z;
     follow_up_system :=
       "Generate EXACTLY 2 thoughtful follow‑up questions that would deepen the user's understanding or cover uncovered aspects. Be concise.";
     follow_up_request := "Generate EXACTLY 2 follow-up questions." ++ nl ++ nl;
     follow_up_slice := Some 2%Z;
     search_tool := {| k := 5 |} |}.

Definition query_analyser (W : World) : node_fn := Pipeline.query_analyser W settings.
Definition search_executor (W : World) : node_fn := Pipeline.search_executor W settings.
Definition content_synthesiser (W : World) : node_fn := Pipeline.content_synthesiser W.
Definition follow_up_generator (W : World) : node_fn := Pipeline.follow_up_generator W settings.
Definition error_handler : node_fn := Pipeline.error_handler.

Definition build_graph (W : World) : StateGraph := Pipeline.build_graph W settings.

(** The graph is executed once, by [wf.invoke]. *)
Definition run_research_workflow (W : World) (question : string) : M Report :=
  let initial := initial_state question in
  let wf := build_graph W in
  final_state <- invoke wf initial ;;
  ret {| original_query := user_query final_state;
         report_search_queries := search_queries final_state;
         report_research_summary := research_summary final_state;
         report_follow_up_questions := follow_up_questions final_state;
         report_errors := errors final_state;
         progress := Some [] |}.

End Main.

(** ** Vocabulary of the statements *)

(** The trace counts completions by their system message, which tells the
    three completion stages apart, and searches by their number. *)
Definition is_llm_call (system : string) (c : call) : bool :=
  match c with
  | LLMCall sys _ => String.eqb sys system
  | SearchCall _ _ => false
  end.

Definition is_search_call (c : call) : bool :=
  match c with
  | LLMCall _ _ => false
  | SearchCall _ _ => true
  end.

Definition llm_calls (system : string) (t : trace) : nat :=
  List.length (filter (is_llm_call system) t).

Definition search_calls (t : trace) : nat :=
  List.length (filter is_search_call t).

(** A search result carries the three keys [content_synthesiser] reads. *)
Definition well_keyed (r : pydict) : Prop :=
  exists title url content,
    dict_find "title" r = Some title /\
    dict_find "url" r = Some url /\
    dict_find "content" r = Some content.

(** [searched W tool qs t rss t']: from trace [t], the searches for [qs], in
    order, all succeed; [rss] lists what each returned and [t'] is the trace
    afterwards. *)
Inductive searched (W : World) (tool : SerperSearchTool)
  : list string -> trace -> list (list pydict) -> trace -> Prop :=
| searched_nil t : searched W tool [] t [] t
| searched_cons q qs t rs t1 rss t2 :
    SerperSearchTool_invoke W tool q t = (inr rs, t1) ->
    searched W tool qs t1 rss t2 ->
    searched W tool (q :: qs) t (rs :: rss) t2.

(** A stage is its [try] block, with a raised exception turned into the
    failed state. *)
Definition caught (stage : string) (s : ResearchState)
    (r : (exn + ResearchState) * trace) : (exn + ResearchState) * trace :=
  match r with
  | (inr s', t') => (inr s', t')
  | (inl e, t') => (inr (stage_failed stage s e), t')
  end.

(** The four stages that can fail. *)
Definition stage_names : list string :=
  ["query_analyser"; "search_executor"; "content_synthesiser"; "follow_up_generator"].

(** The state after the error node handled the failure of [stage]. *)
Definition handled (stage : string) (s : ResearchState) (e : exn) : ResearchState :=
  set_current_step (stage_failed stage s e) "complete".

Section Outcomes.

Variable W : World.
Variable cfg : Settings.

(** The [try] blocks with the arguments the stages pass them. *)
Definition try_query_analyser (s : ResearchState) : M ResearchState :=
  Pipeline.query_analyser_try W cfg s (query_system cfg)
    (Pipeline.query_analyser_prompt W cfg s).

Definition try_search_executor (s : ResearchState) : M ResearchState :=
  Pipeline.search_executor_try W cfg s.

Definition try_content_synthesiser (s : ResearchState) (lines : list string)
  : M ResearchState :=
  Pipeline.content_synthesiser_try W s Pipeline.content_synthesiser_system
    (Pipeline.content_synthesiser_prompt W s (String.concat nl lines)).

Definition try_follow_up_generator (s : ResearchState) : M ResearchState :=
  Pipeline.follow_up_generator_try W cfg s (follow_up_system cfg)
    (Pipeline.follow_up_generator_prompt W cfg s).

(** The five ways one execution of the graph from [s0] and [t0] can go: the
    [try] block of one of the four stages raises after the earlier ones
    returned, or all four return. *)
Inductive run_outcome (s0 : ResearchState) (t0 : trace)
  : ResearchState -> trace -> Prop :=
| query_analysis_raised e t1 :
    try_query_analyser s0 t0 = (inl e, t1) ->
    run_outcome s0 t0 (handled "query_analyser" s0 e) t1
| search_raised s1 t1 e t2 :
    try_query_analyser s0 t0 = (inr s1, t1) ->
    try_search_executor s1 t1 = (inl e, t2) ->
    run_outcome s0 t0 (handled "search_executor" s1 e) t2
| synthesis_raised s1 t1 s2 t2 lines e t3 :
    try_query_analyser s0 t0 = (inr s1, t1) ->
    try_search_executor s1 t1 = (inr s2, t2) ->
    Pipeline.format_sources W 0 (search_results s2) = inr lines ->
    try_content_synthesiser s2 lines t2 = (inl e, t3) ->
    run_outcome s0 t0 (handled "content_synthesiser" s2 e) t3
| follow_up_raised s1 t1 s2 t2 lines s3 t3 e t4 :
    try_query_analyser s0 t0 = (inr s1, t1) ->
    try_search_executor s1 t1 = (inr s2, t2) ->
    Pipeline.format_sources W 0 (search_results s2) = inr lines ->
    try_content_synthesiser s2 lines t2 = (inr s3, t3) ->
    try_follow_up_generator s3 t3 = (inl e, t4) ->
    run_outcome s0 t0 (handled "follow_up_generator" s3 e) t4
| all_returned s1 t1 s2 t2 lines s3 t3 s4 t4 :
    try_query_analyser s0 t0 = (inr s1, t1) ->
    try_search_executor s1 t1 = (inr s2, t2) ->
    Pipeline.format_sources W 0 (search_results s2) = inr lines ->
    try_content_synthesiser s2 lines t2 = (inr s3, t3) ->
    try_follow_up_generator s3 t3 = (inr s4, t4) ->
    run_outcome s0 t0 s4 t4.

End Outcomes.


(** The ["organic"] entry of the body [d], when present, is the list of the
    dicts [ds]; when absent, [ds] is empty. *)
Definition organic_is (d : pydict) (ds : list pydict) : Prop :=
  match dict_find "organic" d with
  | Some v => v = PyList (map PyDict ds)
  | None => ds = []
  end.

(** The three completion stages of a file use three different system
    messages. *)
Definition distinct_systems (cfg : Settings) : Prop :=
  query_system cfg <> Pipeline.content_synthesiser_system
  /\ follow_up_system cfg <> Pipeline.content_synthesiser_system
  /\ query_system cfg <> follow_up_system cfg.

(** The report built from a final state. *)
Definition report_of (final_state : ResearchState) (p : option (list string)) : Report :=
  {| original_query := user_query final_state;
     report_search_queries := search_queries final_state;
     report_research_summary := research_summary final_state;
     report_follow_up_questions := follow_up_questions final_state;
     report_errors := errors final_state;
     progress := p |}.

(** ** Test worlds *)

(** A world whose completions always come back (as the text ["ok"]) and whose
    parsers and endpoint answer as given, whatever was called before. *)
Definition scripted_world
    (queries : exn + list SearchQuery)
    (endpoint : string -> exn + Response)
    (synthesis : exn + ResearchSummary)
    (follow_ups : exn + list FollowUpQuestion) : World :=
  {| llm_reply := fun _ _ _ => inr "ok";
     http_reply := fun _ q _ => endpoint q;
     http_error := fun _ => Exn "HTTPError" "Server Error";
     parse_SearchQueries := fun _ => queries;
     parse_ResearchSummary := fun _ => synthesis;
     parse_FollowUpQuestions := fun _ => follow_ups;
     format_SearchQueries := "<queries schema>";
     format_ResearchSummary := "<summary schema>";
     format_FollowUpQuestions := "<questions schema>";
     py_str := fun v => match v with PyStr s => s | _ => "None" end |}.

Definition organic_item (title link snippet : string) : pyval :=
  PyDict [("title", PyStr title); ("link", PyStr link); ("snippet", PyStr snippet)].

(** Two organic results for every query. *)
Definition two_hits (q : string) : exn + Response :=
  inr {| status_code := 200;
         json := inr (PyDict [("organic",
                   PyList [organic_item (q ++ " 1") "http://a" "first";
                           organic_item (q ++ " 2") "http://b" "second"])]) |}.

Definition three_queries : list SearchQuery :=
  [ {| query := "q1"; query_rationale := "r1" |};
    {| query := "q2"; query_rationale := "r2" |};
    {| query := "q3"; query_rationale := "r3" |} ].

Definition photosynthesis_summary : ResearchSummary :=
  {| summary := "Photosynthesis converts light to chemical energy.";
     key_insights := ["light"]; sources_consulted := ["http://a"] |}.

Definition two_follow_ups : list FollowUpQuestion :=
  [ {| question := "f1"; question_rationale := "r1" |};
    {| question := "f2"; question_rationale := "r2" |} ].

(** Scenario A: every collaborator answers. *)
Definition happy_world : World :=
  scripted_world (inr three_queries) two_hits (inr photosynthesis_summary)
    (inr two_follow_ups).


(** Fewer and more queries than the three asked for. *)
Definition two_queries : list SearchQuery := firstn 2 three_queries.

Definition four_queries : list SearchQuery :=
  (three_queries ++ [ {| query := "q4"; query_rationale := "r4" |} ])%list.

Definition short_world : World :=
  scripted_world (inr two_queries) two_hits (inr photosynthesis_summary)
    (inr two_follow_ups).

Definition long_world : World :=
  scripted_world (inr four_queries) two_hits (inr photosynthesis_summary)
    (inr two_follow_ups).

(** Scenario B: the endpoint fails on the second query. *)
Definition ConnectionError : exn := Exn "ConnectionError" "connection refused".

Definition second_fails (q : string) : exn + Response :=
  if String.eqb q "q2" then inl ConnectionError else two_hits q.

Definition outage_world : World :=
  scripted_world (inr three_queries) second_fails (inr photosynthesis_summary)
    (inr two_follow_ups).

(** The completion of the first stage does not parse. *)
Definition ValidationError : exn := Exn "OutputParserException" "Failed to parse".

Definition garbled_world : World :=
  scripted_world (inl ValidationError) two_hits (inr photosynthesis_summary)
    (inr two_follow_ups).

(** The ordering example: two results for the first query, one for the
    second. *)
Definition r1a : pyval := organic_item "r1a" "http://1a" "a".
Definition r1b : pyval := organic_item "r1b" "http://1b" "b".
Definition r2a : pyval := organic_item "r2a" "http://2a" "a".

Definition ordering_endpoint (q : string) : exn + Response :=
  inr {| status_code := 200;
         json := inr (PyDict [("organic",
                   PyList (if String.eqb q "q1" then [r1a; r1b] else [r2a]))]) |}.

Definition ordering_world : World :=
  scripted_world (inr two_queries) ordering_endpoint (inr photosynthesis_summary)
    (inr two_follow_ups).

(** Bodies the endpoint could send: an [organic] that is [null], and items
    lacking keys. *)
Definition null_organic : pyval := PyDict [("organic", PyNone)].

Definition sparse_body : pyval :=
  PyDict [("organic", PyList [PyDict [("title", PyStr "only a title")];
                              PyDict [];
                              PyDict [("link", PyStr "http://c")]])].

Definition null_organic_world : World :=
  scripted_world (inr three_queries)
    (fun _ => inr {| status_code := 200; json := inr null_organic |})
    (inr photosynthesis_summary) (inr two_follow_ups).

Definition sparse_world : World :=
  scripted_world (inr three_queries)
    (fun _ => inr {| status_code := 200; json := inr sparse_body |})
    (inr photosynthesis_summary) (inr two_follow_ups).

(** * The rest of the two files *)

(** ** SerperSearchTool.__init__ *)

(** [os.getenv("SERPER_API_KEY")] is read from the environment; an unset or
    empty key is refused.  The tool keeps the limit and the request
    headers. *)
Definition SerperSearchTool_init (environ : string -> option string) (limit : Z)
  : exn + (SerperSearchTool * list (string * string)) :=
  match environ "SERPER_API_KEY" with
  | None => inl (Exn "ValueError" "SERPER_API_KEY is not set in environment")
  | Some key =>
      if String.eqb key ""
      then inl (Exn "ValueError" "SERPER_API_KEY is not set in environment")
      else inr ({| k := limit |},
                [("X-API-KEY", key); ("Content-Type", "application/json")])
  end.

(** ** agents.py as a script *)

(** [print(a, b, ...)]: the arguments separated by a space, then a newline. *)
Definition print_text (args : list string) : string :=
  String.concat " " args ++ nl.

(** [for i, x in enumerate(items, i): print(f"  {i}. {x}")] *)
Fixpoint print_numbered (i : nat) (items : list string) : string :=
  match items with
  | [] => ""
  | x :: rest =>
      print_text ["  " ++ decimal i ++ ". " ++ x] ++ print_numbered (S i) rest
  end.

(** [for e in result["errors"]: print("  –", e)] *)
Fixpoint print_errors (errs : list string) : string :=
  match errs with
  | [] => ""
  | e :: rest => print_text ["  –"; e] ++ print_errors rest
  end.

(** What the script prints once the workflow has returned. *)
Definition print_results (result : Report) : string :=
  print_text [nl ++ "=== RESULTS ===" ++ nl]
  ++ print_text ["Original Query:"; original_query result; nl]
  ++ print_text ["Search Queries:"]
  ++ print_numbered 1 (report_search_queries result)
  ++ print_text [nl ++ "Research Summary:" ++ nl; report_research_summary result; nl]
  ++ print_text ["Follow‑up Questions:"]
  ++ print_numbered 1 (report_follow_up_questions result)
  ++ match report_errors result with
     | [] => ""
     | _ :: _ => print_text [nl ++ "Errors:"] ++ print_errors (report_errors result)
     end.

(** The [__main__] block of [agents.py], given [sys.argv]: the exit status
    and what the block itself prints (the lines printed while the workflow
    runs are left out, as everywhere).  [sys.exit(1)] ends the script with
    status 1; a script that runs to its end has status 0. *)
Definition agents_main (W : World) (argv : list string) : M (Z * string) :=
  if Nat.ltb (List.length argv) 2
  then ret (1%Z, print_text ["Usage: python research_workflow.py <your question>"])
  else
    let q := String.concat " " (tl argv) in
    result <- Agents.run_research_workflow W q ;;
    ret (0%Z, print_results result).

(** ** The Gradio callbacks of main.py *)

(** [not query.strip()]: the string is empty or made of white space only.
    [strip] removes the characters Python counts as white space; the string
    being held as UTF-8, those outside ASCII are matched by their
    encodings. *)
Definition ascii_space (n : N) : bool :=
  (((9 <=? n) && (n <=? 13)) || ((28 <=? n) && (n <=? 32)))%N.

Definition two_byte_space (n1 n2 : N) : bool :=
  ((n1 =? 194) && ((n2 =? 133) || (n2 =? 160)))%N.

Definition three_byte_space (n1 n2 n3 : N) : bool :=
  (((n1 =? 225) && (n2 =? 154) && (n3 =? 128))
   || ((n1 =? 226) && (n2 =? 128)
       && (((128 <=? n3) && (n3 <=? 138)) || (n3 =? 168) || (n3 =? 169) || (n3 =? 175)))
   || ((n1 =? 226) && (n2 =? 129) && (n3 =? 159))
   || ((n1 =? 227) && (n2 =? 128) && (n3 =? 128)))%N.

Fixpoint is_blank (s : string) : bool :=
  match s with
  | EmptyString => true
  | String c1 s1 =>
      if ascii_space (N_of_ascii c1) then is_blank s1
      else
        match s1 with
        | EmptyString => false
        | String c2 s2 =>
            if two_byte_space (N_of_ascii c1) (N_of_ascii c2) then is_blank s2
            else
              match s2 with
              | EmptyString => false
              | String c3 s3 =>
                  if three_byte_space (N_of_ascii c1) (N_of_ascii c2) (N_of_ascii c3)
                  then is_blank s3
                  else false
              end
        end
  end.

(** [gr.update(...)]: the keyword arguments given.  [value=None] differs
    from no [value] at all. *)
Inductive update_value : Type :=
| NoValue
| ValueNone
| ValueList (choices : list string).

Record Update : Type := {
  visible : option bool;
  value : update_value
}.

(** The fourth value returned: the empty string on a blank query, a list
    otherwise. *)
Inductive questions_value : Type :=
| QuestionsText (s : string)
| QuestionsList (l : list string).

(** The tuple [process_query] returns, named after the components it is
    wired to. *)
Record Outputs : Type := {
  query_input : string;
  chatbot : list (string * string);
  follow_up_section : Update;
  current_questions : questions_value;
  follow_up_btns : Update
}.

(** [for i, x in enumerate(items, i): response += f"{i}. {x}\n"] *)
Fixpoint numbered_lines (i : nat) (items : list string) : string :=
  match items with
  | [] => ""
  | x :: rest => decimal i ++ ". " ++ x ++ nl ++ numbered_lines (S i) rest
  end.

(** [for e in result['errors']: response += f"- {e}\n"] *)
Fixpoint error_lines (errs : list string) : string :=
  match errs with
  | [] => ""
  | e :: rest => "- " ++ e ++ nl ++ error_lines rest
  end.

(** The markdown answer built from the report. *)
Definition format_response (result : Report) : string :=
  let response := "## 📊 Research Summary" ++ nl ++ nl
                  ++ report_research_summary result ++ nl ++ nl in
  let response :=
    match report_search_queries result with
    | [] => response
    | _ :: _ =>
        response ++ "### 🔍 Search Queries Used:" ++ nl
        ++ numbered_lines 1 (report_search_queries result) ++ nl
    end in
  match report_errors result with
  | [] => response
  | _ :: _ =>
      response ++ "### ⚠️ Errors Encountered:" ++ nl
      ++ error_lines (report_errors result) ++ nl
  end.

Module MainApp.

(** [process_query(query, history)].  [history.append] extends the list
    it was given, which is also the list returned. *)
Definition process_query (W : World) (query : string) (history : list (string * string))
  : M Outputs :=
  if is_blank query
  then ret {| query_input := "";
              chatbot := history;
              follow_up_section := {| visible := Some false; value := NoValue |};
              current_questions := QuestionsText "";
              follow_up_btns := {| visible := None; value := ValueNone |} |}
  else
    let history := (history ++ [("User", query)])%list in
    try_except
      (result <- Main.run_research_workflow W query ;;
       let response := format_response result in
       let history := (history ++ [("Assistant", response)])%list in
       match report_follow_up_questions result with
       | _ :: _ =>
           ret {| query_input := "";
                  chatbot := history;
                  follow_up_section :=
                    {| visible := Some true;
                       value := ValueList (report_follow_up_questions result) |};
                  current_questions := QuestionsList (report_follow_up_questions result);
                  follow_up_btns := {| visible := None; value := ValueNone |} |}
       | [] =>
           ret {| query_input := "";
                  chatbot := history;
                  follow_up_section := {| visible := Some false; value := NoValue |};
                  current_questions := QuestionsList [];
                  follow_up_btns := {| visible := None; value := ValueNone |} |}
       end)
      (fun e =>
         let error_msg := "❌ An error occurred: " ++ exn_str e in
         let history := (history ++ [("Assistant", error_msg)])%list in
         ret {| query_input := "";
                chatbot := history;
                follow_up_section := {| visible := Some false; value := NoValue |};
                current_questions := QuestionsList [];
                follow_up_btns := {| visible := None; value := ValueNone |} |}).


End MainApp.

(** ** Further vocabulary *)

(** What [process_query] returns when it does nothing. *)
Definition nothing_done (history : list (string * string)) : Outputs :=
  {| query_input := "";
     chatbot := history;
     follow_up_section := {| visible := Some false; value := NoValue |};
     current_questions := QuestionsText "";
     follow_up_btns := {| visible := None; value := ValueNone |} |}.

(** The collaborators keep no state: their replies do not depend on what was
    called before. *)
Definition stateless (W : World) : Prop :=
  (forall t t' system human, llm_reply W t system human = llm_reply W t' system human)
  /\ (forall t t' q num, http_reply W t q num = http_reply W t' q num).

(** A computation that, from any trace, gives the same result and adds the
    same calls. *)
Definition uniform {A : Type} (m : M A) : Prop :=
  exists r calls, forall t, m t = (r, (calls ++ t)%list).

(** The requests for the queries [qs], latest first. *)
Definition requests (tool : SerperSearchTool) (qs : list string) : trace :=
  rev (map (fun q => SearchCall q (k tool)) qs).

(** The keys of a result entry. *)
Definition result_keys : list string := ["title"; "url"; "content"].

(** A world in which the follow-up completion does not parse. *)
Definition no_follow_up_world : World :=
  scripted_world (inr three_queries) two_hits (inr photosynthesis_summary)
    (inl ValidationError).

(** A world in which the query-analysis completion parses to no query. *)
Definition no_query_world : World :=
  scripted_world (inr []) two_hits (inr photosynthesis_summary) (inr two_follow_ups).

(** A world whose endpoint answers 503 with a well-formed body. *)
Definition unavailable_world : World :=
  scripted_world (inr three_queries)
    (fun _ => inr {| status_code := 503; json := inr sparse_body |})
    (inr photosynthesis_summary) (inr two_follow_ups).

(** * Properties *)

(** ** SerperSearchTool.invoke *)

Section SearchTool.

Variable self : SerperSearchTool.

Lemma py_slice_to_length (A : Type) (l : list A) (n : Z) :
  (0 <= n)%Z -> List.length (py_slice_to n l) = Nat.min (Z.to_nat n) (List.length l).
Proof.
  intros Hn. unfold py_slice_to.
  destruct (Z.leb_spec 0 n) as [_ | Hneg]; [ | lia ].
  apply length_firstn.
Qed.

Lemma py_slice_to_firstn (A : Type) (l : list A) (n : Z) :
  (0 <= n)%Z -> py_slice_to n l = firstn (Z.to_nat n) l.
Proof.
  intros Hn. unfold py_slice_to.
  destruct (Z.leb_spec 0 n); [ reflexivity | lia ].
Qed.

(** The loop over a list of dicts appends one entry per item, in order. *)
Lemma append_results_dicts (ds : list pydict) (results : list pydict) :
  append_results results (map PyDict ds) = inr (results ++ map entry_of ds)%list.
Proof.
  revert results.
  induction ds as [ | d ds IH ]; intros results; simpl.
  - now rewrite app_nil_r.
  - rewrite IH. now rewrite <- app_assoc.
Qed.

Lemma entry_of_well_keyed (d : pydict) : well_keyed (entry_of d).
Proof.
  exists (dict_get "title" d), (dict_get "link" d), (dict_get "snippet" d).
  repeat split.
Qed.

(** Whatever the loop returns is made of the earlier results and of
    entries built by [entry_of]. *)
Lemma append_results_well_keyed (items : list pyval) :
  forall results rs,
    Forall well_keyed results ->
    append_results results items = inr rs ->
    Forall well_keyed rs.
Proof.
  induction items as [ | item items IH ]; intros results rs Hres Hrun; simpl in Hrun.
  - now inversion Hrun; subst.
  - destruct item; simpl in Hrun; try discriminate.
    apply IH in Hrun; [ exact Hrun | ].
    apply Forall_app; split; [ exact Hres | ].
    constructor; [ apply entry_of_well_keyed | constructor ].
Qed.

Lemma read_results_well_keyed (data : pyval) (rs : list pydict) :
  read_results self data = inr rs -> Forall well_keyed rs.
Proof.
  unfold read_results.
  destruct (organic_slice self data) as [ e | items ]; [ discriminate | ].
  apply append_results_well_keyed. constructor.
Qed.

Variable W : World.

(** [invoke] always records exactly its one request. *)
Lemma invoke_trace (q : string) (t : trace) :
  snd (SerperSearchTool_invoke W self q t) = SearchCall q (k self) :: t.
Proof.
  unfold SerperSearchTool_invoke, bind, requests_post, raise_for_status, lift.
  destruct (http_reply W t q (k self)) as [ e | resp ]; [ reflexivity | ].
  destruct ((400 <=? status_code resp) && (status_code resp <? 600))%Z; [ reflexivity | ].
  unfold ret. destruct (json resp) as [ e | data ]; reflexivity.
Qed.

Lemma invoke_well_keyed (q : string) (t t' : trace) (rs : list pydict) :
  SerperSearchTool_invoke W self q t = (inr rs, t') -> Forall well_keyed rs.
Proof.
  unfold SerperSearchTool_invoke, bind, requests_post, raise_for_status, lift.
  destruct (http_reply W t q (k self)) as [ e | resp ]; [ discriminate | ].
  destruct ((400 <=? status_code resp) && (status_code resp <? 600))%Z; [ discriminate | ].
  unfold ret. destruct (json resp) as [ e | data ]; [ discriminate | ].
  intros H. inversion H as [ [ Hrs Ht ] ].
  now apply read_results_well_keyed in Hrs.
Qed.

(** On a decoded body the request succeeded with, [invoke] is
    [read_results]. *)
Lemma invoke_on_body (q : string) (t : trace) (resp : Response) (data : pyval) :
  http_reply W t q (k self) = inr resp ->
  ((400 <=? status_code resp) && (status_code resp <? 600))%Z = false ->
  json resp = inr data ->
  SerperSearchTool_invoke W self q t
  = (read_results self data, SearchCall q (k self) :: t).
Proof.
  intros Hreply Hstatus Hjson.
  unfold SerperSearchTool_invoke, bind, requests_post, raise_for_status, lift.
  rewrite Hreply, Hstatus. unfold ret. rewrite Hjson. reflexivity.
Qed.

End SearchTool.

(** ** The stages, one by one *)

Section StageFacts.

Variable W : World.
Variable cfg : Settings.

Lemma query_analyser_try_eq (s : ResearchState) (system prompt : string) (t : trace) :
  Pipeline.query_analyser_try W cfg s system prompt t
  = (match llm_reply W t system prompt with
     | inl e => inl e
     | inr content =>
         match parse_SearchQueries W content with
         | inl e => inl e
         | inr parsed =>
             inr (set_current_step
                    (set_search_queries s (map query (sliced (query_slice cfg) parsed)))
                    "search_executor")
         end
     end, LLMCall system prompt :: t).
Proof.
  unfold Pipeline.query_analyser_try, bind, LLM_invoke, lift, ret.
  destruct (llm_reply W t system prompt) as [ e | content ]; [ reflexivity | ].
  destruct (parse_SearchQueries W content); reflexivity.
Qed.

Lemma content_synthesiser_try_eq (s : ResearchState) (system prompt : string) (t : trace) :
  Pipeline.content_synthesiser_try W s system prompt t
  = (match llm_reply W t system prompt with
     | inl e => inl e
     | inr content =>
         match parse_ResearchSummary W content with
         | inl e => inl e
         | inr parsed =>
             inr (set_current_step (set_research_summary s (summary parsed))
                    "follow_up_generator")
         end
     end, LLMCall system prompt :: t).
Proof.
  unfold Pipeline.content_synthesiser_try, bind, LLM_invoke, lift, ret.
  destruct (llm_reply W t system prompt) as [ e | content ]; [ reflexivity | ].
  destruct (parse_ResearchSummary W content); reflexivity.
Qed.

Lemma follow_up_generator_try_eq (s : ResearchState) (system prompt : string) (t : trace) :
  Pipeline.follow_up_generator_try W cfg s system prompt t
  = (match llm_reply W t system prompt with
     | inl e => inl e
     | inr content =>
         match parse_FollowUpQuestions W content with
         | inl e => inl e
         | inr parsed =>
             inr (set_current_step
                    (set_follow_up_questions s
                       (map question (sliced (follow_up_slice cfg) parsed)))
                    "complete")
         end
     end, LLMCall system prompt :: t).
Proof.
  unfold Pipeline.follow_up_generator_try, bind, LLM_invoke, lift, ret.
  destruct (llm_reply W t system prompt) as [ e | content ]; [ reflexivity | ].
  destruct (parse_FollowUpQuestions W content); reflexivity.
Qed.

Lemma query_analyser_caught (s : ResearchState) (t : trace) :
  Pipeline.query_analyser W cfg s t
  = caught "query_analyser" s
      (Pipeline.query_analyser_try W cfg s (query_system cfg)
         (Pipeline.query_analyser_prompt W cfg s) t).
Proof. reflexivity. Qed.

Lemma search_executor_caught (s : ResearchState) (t : trace) :
  Pipeline.search_executor W cfg s t
  = caught "search_executor" s (Pipeline.search_executor_try W cfg s t).
Proof. reflexivity. Qed.

Lemma content_synthesiser_caught (s : ResearchState) (t : trace) (lines : list string) :
  Pipeline.format_sources W 0 (search_results s) = inr lines ->
  Pipeline.content_synthesiser W s t
  = caught "content_synthesiser" s
      (Pipeline.content_synthesiser_try W s Pipeline.content_synthesiser_system
         (Pipeline.content_synthesiser_prompt W s (String.concat nl lines)) t).
Proof.
  intros Hlines. unfold Pipeline.content_synthesiser, bind, lift.
  rewrite Hlines. reflexivity.
Qed.

Lemma follow_up_generator_caught (s : ResearchState) (t : trace) :
  Pipeline.follow_up_generator W cfg s t
  = caught "follow_up_generator" s
      (Pipeline.follow_up_generator_try W cfg s (follow_up_system cfg)
         (Pipeline.follow_up_generator_prompt W cfg s) t).
Proof. reflexivity. Qed.

End StageFacts.

(** ** The graph engine and the transition table *)

Lemma run_from_step (limit : nat) (g : StateGraph) (name : string) (f : node_fn)
    (s s' : ResearchState) (ups : list (string * ResearchState)) (t t' : trace)
    (target : option string) :
  assoc name (nodes g) = Some f ->
  f s t = (inr s', t') ->
  next_node g name s' = inr target ->
  run_from (S limit) g name s ups t
  = match target with
    | None => (inr (s', ups ++ [(name, s')])%list, t')
    | Some n => run_from limit g n s' (ups ++ [(name, s')])%list t'
    end.
Proof.
  intros Hnode Hrun Hnext. simpl. rewrite Hnode. unfold bind.
  rewrite Hrun, Hnext. destruct target; reflexivity.
Qed.

Section TransitionTable.

Variable W : World.
Variable cfg : Settings.

Local Abbreviation g := (Pipeline.build_graph W cfg).

(** The success edge of each stage. *)
Lemma route_to_search_executor (s : ResearchState) :
  current_step s = "search_executor" ->
  next_node g "query_analyser" s = inr (Some "search_executor").
Proof. intros H. unfold next_node. simpl. unfold Pipeline.route_current_step. rewrite H. reflexivity. Qed.

Lemma route_to_content_synthesiser (s : ResearchState) :
  current_step s = "content_synthesiser" ->
  next_node g "search_executor" s = inr (Some "content_synthesiser").
Proof. intros H. unfold next_node. simpl. unfold Pipeline.route_current_step. rewrite H. reflexivity. Qed.

Lemma route_to_follow_up_generator (s : ResearchState) :
  current_step s = "follow_up_generator" ->
  next_node g "content_synthesiser" s = inr (Some "follow_up_generator").
Proof. intros H. unfold next_node. simpl. unfold Pipeline.route_current_step. rewrite H. reflexivity. Qed.

Lemma route_to_end (s : ResearchState) :
  current_step s = "complete" ->
  next_node g "follow_up_generator" s = inr None.
Proof. intros H. unfold next_node. simpl. unfold Pipeline.route_current_step. rewrite H. reflexivity. Qed.

(** The failure edge: from each of the four stages, the tag ["error"] leads
    to the error node. *)
Lemma route_to_error (stage : string) (s : ResearchState) :
  In stage stage_names ->
  current_step s = "error" ->
  next_node g stage s = inr (Some "error").
Proof.
  intros Hstage H.
  repeat (destruct Hstage as [ <- | Hstage ];
          [ unfold next_node; simpl; unfold Pipeline.route_current_step;
            rewrite H; reflexivity | ]).
  destruct Hstage.
Qed.

(** From the error node the run ends. *)
Lemma route_from_error (s : ResearchState) :
  current_step s = "complete" ->
  next_node g "error" s = inr None.
Proof. intros H. unfold next_node. simpl. unfold Pipeline.route_current_step. rewrite H. reflexivity. Qed.

Lemma run_from_error (limit : nat) (s : ResearchState)
    (ups : list (string * ResearchState)) (t : trace) :
  run_from (S limit) g "error" s ups t
  = (inr (set_current_step s "complete",
          ups ++ [("error", set_current_step s "complete")])%list, t).
Proof.
  rewrite (@run_from_step limit g "error" Pipeline.error_handler s
             (set_current_step s "complete") ups t t None); try reflexivity.
Qed.

End TransitionTable.

(** ** What a returning [try] block leaves behind *)

Section Returns.

Variable W : World.
Variable cfg : Settings.

Lemma try_query_analyser_returns (s s1 : ResearchState) (t t1 : trace) :
  try_query_analyser W cfg s t = (inr s1, t1) ->
  exists qs, s1 = set_current_step (set_search_queries s qs) "search_executor".
Proof.
  unfold try_query_analyser. rewrite query_analyser_try_eq.
  destruct (llm_reply W t _ _) as [ e | content ]; [ discriminate | ].
  destruct (parse_SearchQueries W content) as [ e | parsed ]; [ discriminate | ].
  intros H. inversion H. eauto.
Qed.

Lemma search_each_well_keyed (qs : list string) :
  forall results t rs t',
    Forall well_keyed results ->
    Pipeline.search_each W cfg results qs t = (inr rs, t') ->
    Forall well_keyed rs.
Proof.
  induction qs as [ | q qs IH ]; intros results t rs t' Hres Hrun; simpl in Hrun.
  - inversion Hrun; subst. exact Hres.
  - unfold bind in Hrun.
    destruct (SerperSearchTool_invoke W (search_tool cfg) q t)
      as [ [ e | found ] t1 ] eqn:Hq; [ discriminate | ].
    apply IH in Hrun; [ exact Hrun | ].
    apply Forall_app. split; [ exact Hres | ].
    eapply invoke_well_keyed; eassumption.
Qed.

Lemma try_search_executor_returns (s s2 : ResearchState) (t t2 : trace) :
  try_search_executor W cfg s t = (inr s2, t2) ->
  exists rs,
    s2 = set_current_step (set_search_results s rs) "content_synthesiser"
    /\ Forall well_keyed rs.
Proof.
  unfold try_search_executor, Pipeline.search_executor_try, bind.
  destruct (Pipeline.search_each W cfg [] (search_queries s) t)
    as [ [ e | rs ] t' ] eqn:Hrun; [ discriminate | ].
  intros H. inversion H. exists rs. split; [ reflexivity | ].
  eapply search_each_well_keyed; [ | eassumption ]. constructor.
Qed.

(** Well-keyed results can always be formatted for the prompt. *)
Lemma format_sources_total (rs : list pydict) :
  Forall well_keyed rs ->
  forall i, exists lines, Pipeline.format_sources W i rs = inr lines.
Proof.
  induction 1 as [ | r rs (title & url & content & Ht & Hu & Hc) _ IH ];
    intros i; simpl.
  - eauto.
  - unfold Pipeline.format_source, dict_item. rewrite Ht, Hu, Hc.
    destruct (IH (S i)) as [ lines -> ]. eauto.
Qed.

Lemma try_content_synthesiser_returns (s s3 : ResearchState) (lines : list string)
    (t t3 : trace) :
  try_content_synthesiser W s lines t = (inr s3, t3) ->
  exists text,
    s3 = set_current_step (set_research_summary s text) "follow_up_generator".
Proof.
  unfold try_content_synthesiser. rewrite content_synthesiser_try_eq.
  destruct (llm_reply W t _ _) as [ e | content ]; [ discriminate | ].
  destruct (parse_ResearchSummary W content) as [ e | parsed ]; [ discriminate | ].
  intros H. inversion H. eauto.
Qed.

Lemma try_follow_up_generator_returns (s s4 : ResearchState) (t t4 : trace) :
  try_follow_up_generator W cfg s t = (inr s4, t4) ->
  exists qs, s4 = set_current_step (set_follow_up_questions s qs) "complete".
Proof.
  unfold try_follow_up_generator. rewrite follow_up_generator_try_eq.
  destruct (llm_reply W t _ _) as [ e | content ]; [ discriminate | ].
  destruct (parse_FollowUpQuestions W content) as [ e | parsed ]; [ discriminate | ].
  intros H. inversion H. eauto.
Qed.

End Returns.

(** ** One execution of the graph *)

Section Execution.

Variable W : World.
Variable cfg : Settings.

Local Abbreviation g := (Pipeline.build_graph W cfg).

(** A stage whose [try] block raised is followed by the error node, which
    ends the run. *)
Lemma run_from_failed (limit : nat) (stage : string) (f : node_fn)
    (s : ResearchState) (e : exn) (ups : list (string * ResearchState))
    (t t' : trace) :
  In stage stage_names ->
  assoc stage (nodes g) = Some f ->
  f s t = (inr (stage_failed stage s e), t') ->
  exists ups',
    run_from (S (S limit)) g stage s ups t = (inr (handled stage s e, ups'), t').
Proof.
  intros Hstage Hnode Hrun.
  rewrite (@run_from_step _ g stage f s _ ups t t' (Some "error") Hnode Hrun).
  - rewrite run_from_error. eauto.
  - apply route_to_error; [ exact Hstage | reflexivity ].
Qed.

Lemma execute_outcome (s0 : ResearchState) (t0 : trace) :
  exists final ups t',
    execute g s0 t0 = (inr (final, ups), t')
    /\ run_outcome W cfg s0 t0 final t'.
Proof.
  unfold execute. change (entry_point g) with (Some "query_analyser").
  unfold recursion_limit.
  destruct (try_query_analyser W cfg s0 t0) as [ [ e | s1 ] t1 ] eqn:H1.
  { (* query_analyser raised *)
    destruct (@run_from_failed 23 "query_analyser" (Pipeline.query_analyser W cfg)
                s0 e [] t0 t1) as [ ups Hrun ].
    - simpl; tauto.
    - reflexivity.
    - rewrite query_analyser_caught. fold (try_query_analyser W cfg s0).
      rewrite H1. reflexivity.
    - exists (handled "query_analyser" s0 e), ups, t1. split; [ exact Hrun | ].
      now constructor. }
  destruct (try_query_analyser_returns _ _ _ _ H1) as [ qs Hs1 ].
  rewrite (@run_from_step _ g "query_analyser" (Pipeline.query_analyser W cfg)
             s0 s1 [] t0 t1 (Some "search_executor"));
    [ | reflexivity
      | rewrite query_analyser_caught; fold (try_query_analyser W cfg s0);
        rewrite H1; reflexivity
      | apply route_to_search_executor; subst s1; reflexivity ].
  destruct (try_search_executor W cfg s1 t1) as [ [ e | s2 ] t2 ] eqn:H2.
  { destruct (@run_from_failed 22 "search_executor" (Pipeline.search_executor W cfg)
                s1 e ([] ++ [("query_analyser", s1)]) t1 t2) as [ ups Hrun ].
    - simpl; tauto.
    - reflexivity.
    - rewrite search_executor_caught. fold (try_search_executor W cfg s1).
      rewrite H2. reflexivity.
    - exists (handled "search_executor" s1 e), ups, t2. split; [ exact Hrun | ].
      econstructor; eassumption. }
  destruct (try_search_executor_returns _ _ _ _ H2) as (rs & Hs2 & Hkeys).
  rewrite (@run_from_step _ g "search_executor" (Pipeline.search_executor W cfg)
             s1 s2 _ t1 t2 (Some "content_synthesiser"));
    [ | reflexivity
      | rewrite search_executor_caught; fold (try_search_executor W cfg s1);
        rewrite H2; reflexivity
      | apply route_to_content_synthesiser; subst s2; reflexivity ].
  destruct (@format_sources_total W (search_results s2)) with (i := 0)
    as [ lines Hlines ]; [ subst s2; exact Hkeys | ].
  destruct (try_content_synthesiser W s2 lines t2) as [ [ e | s3 ] t3 ] eqn:H3.
  { destruct (@run_from_failed 21 "content_synthesiser" (Pipeline.content_synthesiser W)
                s2 e (([] ++ [("query_analyser", s1)]) ++ [("search_executor", s2)])
                t2 t3) as [ ups Hrun ].
    - simpl; tauto.
    - reflexivity.
    - rewrite (content_synthesiser_caught _ _ _ Hlines).
      fold (try_content_synthesiser W s2 lines). rewrite H3. reflexivity.
    - exists (handled "content_synthesiser" s2 e), ups, t3. split; [ exact Hrun | ].
      econstructor; eassumption. }
  destruct (try_content_synthesiser_returns _ _ _ _ H3) as [ text Hs3 ].
  rewrite (@run_from_step _ g "content_synthesiser" (Pipeline.content_synthesiser W)
             s2 s3 _ t2 t3 (Some "follow_up_generator"));
    [ | reflexivity
      | rewrite (content_synthesiser_caught _ _ _ Hlines);
        fold (try_content_synthesiser W s2 lines); rewrite H3; reflexivity
      | apply route_to_follow_up_generator; subst s3; reflexivity ].
  destruct (try_follow_up_generator W cfg s3 t3) as [ [ e | s4 ] t4 ] eqn:H4.
  { destruct (@run_from_failed 20 "follow_up_generator"
                (Pipeline.follow_up_generator W cfg) s3 e
                ((([] ++ [("query_analyser", s1)]) ++ [("search_executor", s2)])
                   ++ [("content_synthesiser", s3)]) t3 t4) as [ ups Hrun ].
    - simpl; tauto.
    - reflexivity.
    - rewrite follow_up_generator_caught. fold (try_follow_up_generator W cfg s3).
      rewrite H4. reflexivity.
    - exists (handled "follow_up_generator" s3 e), ups, t4. split; [ exact Hrun | ].
      econstructor; eassumption. }
  destruct (try_follow_up_generator_returns _ _ _ _ H4) as [ fqs Hs4 ].
  rewrite (@run_from_step _ g "follow_up_generator" (Pipeline.follow_up_generator W cfg)
             s3 s4 _ t3 t4 None);
    [ | reflexivity
      | rewrite follow_up_generator_caught; fold (try_follow_up_generator W cfg s3);
        rewrite H4; reflexivity
      | apply route_to_end; subst s4; reflexivity ].
  eexists s4, _, t4. split; [ reflexivity | ].
  econstructor; eassumption.
Qed.

End Execution.

(** ** The calls of one execution *)

Lemma llm_calls_app (system : string) (t1 t2 : trace) :
  llm_calls system (t1 ++ t2)%list = llm_calls system t1 + llm_calls system t2.
Proof. unfold llm_calls. now rewrite filter_app, length_app. Qed.

Lemma search_calls_app (t1 t2 : trace) :
  search_calls (t1 ++ t2)%list = search_calls t1 + search_calls t2.
Proof. unfold search_calls. now rewrite filter_app, length_app. Qed.

Lemma llm_calls_searches (system : string) (t : trace) :
  forallb is_search_call t = true -> llm_calls system t = 0.
Proof.
  unfold llm_calls. induction t as [ | c t IH ]; simpl; [ reflexivity | ].
  destruct c; simpl; [ discriminate | exact IH ].
Qed.

Lemma search_calls_searches (t : trace) :
  forallb is_search_call t = true -> search_calls t = List.length t.
Proof.
  unfold search_calls. induction t as [ | c t IH ]; simpl; [ reflexivity | ].
  destruct c; simpl; [ discriminate | ]. intros H. now rewrite IH.
Qed.

Section Calls.

Variable W : World.
Variable cfg : Settings.

(** The loop makes one request per query it gets to, and nothing else. *)
Lemma search_each_trace (qs : list string) :
  forall results t,
  exists searches,
    snd (Pipeline.search_each W cfg results qs t) = (searches ++ t)%list
    /\ forallb is_search_call searches = true
    /\ List.length searches <= List.length qs.
Proof.
  induction qs as [ | q qs IH ]; intros results t; simpl.
  - exists []. repeat split. simpl. lia.
  - unfold bind.
    pose proof (invoke_trace (search_tool cfg) W q t) as Ht.
    destruct (SerperSearchTool_invoke W (search_tool cfg) q t)
      as [ [ e | found ] t1 ]; simpl in Ht; subst t1.
    + exists [SearchCall q (k (search_tool cfg))]. repeat split. simpl. lia.
    + destruct (IH (results ++ found)%list (SearchCall q (k (search_tool cfg)) :: t))
        as (searches & -> & Hall & Hlen).
      exists (searches ++ [SearchCall q (k (search_tool cfg))])%list.
      repeat split.
      * now rewrite <- app_assoc.
      * rewrite forallb_app, Hall. reflexivity.
      * rewrite length_app. simpl. lia.
Qed.

(** The calls of one execution, latest first: at most one completion per
    completion stage, and between the first two of them at most one request
    per search query. *)
Lemma run_outcome_trace (s0 final : ResearchState) (t0 t' : trace) :
  run_outcome W cfg s0 t0 final t' ->
  exists later searches (parsed : list SearchQuery),
    t' = (later ++ searches
          ++ LLMCall (query_system cfg) (Pipeline.query_analyser_prompt W cfg s0) :: t0)%list
    /\ forallb is_search_call searches = true
    /\ List.length searches <= List.length (sliced (query_slice cfg) parsed)
    /\ (later = []
        \/ (exists p, later = [LLMCall Pipeline.content_synthesiser_system p])
        \/ (exists p p', later = [LLMCall (follow_up_system cfg) p';
                                  LLMCall Pipeline.content_synthesiser_system p])).
Proof.
  assert (Hq : forall s1 t1 r, try_query_analyser W cfg s0 t0 = (r, t1) ->
             t1 = LLMCall (query_system cfg) (Pipeline.query_analyser_prompt W cfg s0) :: t0
             /\ (r = inr s1 -> exists parsed : list SearchQuery,
                   List.length (search_queries s1)
                   = List.length (sliced (query_slice cfg) parsed))).
  { intros s1 t1 r. unfold try_query_analyser. rewrite query_analyser_try_eq.
    intros H. inversion H as [ [ Hr Ht ] ]. split; [ reflexivity | ].
    destruct (llm_reply W t0 _ _) as [ e | content ]; [ discriminate | ].
    destruct (parse_SearchQueries W content) as [ e | parsed ]; [ discriminate | ].
    intros Hs1. inversion Hs1. exists parsed. simpl. apply length_map. }
  assert (Hs : forall s1 t1 r t2, try_search_executor W cfg s1 t1 = (r, t2) ->
             exists searches, t2 = (searches ++ t1)%list
               /\ forallb is_search_call searches = true
               /\ List.length searches <= List.length (search_queries s1)).
  { intros s1 t1 r t2. unfold try_search_executor, Pipeline.search_executor_try, bind.
    destruct (search_each_trace (search_queries s1) [] t1) as (searches & Ht & Hall & Hlen).
    destruct (Pipeline.search_each W cfg [] (search_queries s1) t1) as [ [ e | rs ] t ];
      simpl in Ht; subst t; intros H; inversion H; eauto. }
  assert (Hc : forall s2 lines t2 r t3, try_content_synthesiser W s2 lines t2 = (r, t3) ->
             exists p, t3 = LLMCall Pipeline.content_synthesiser_system p :: t2).
  { intros s2 lines t2 r t3. unfold try_content_synthesiser.
    rewrite content_synthesiser_try_eq. intros H. inversion H. eauto. }
  assert (Hf : forall s3 t3 r t4, try_follow_up_generator W cfg s3 t3 = (r, t4) ->
             exists p, t4 = LLMCall (follow_up_system cfg) p :: t3).
  { intros s3 t3 r t4. unfold try_follow_up_generator.
    rewrite follow_up_generator_try_eq. intros H. inversion H. eauto. }
  intros Hrun.
  destruct Hrun as
    [ e t1 H1
    | s1 t1 e t2 H1 H2
    | s1 t1 s2 t2 lines e t3 H1 H2 Hl H3
    | s1 t1 s2 t2 lines s3 t3 e t4 H1 H2 Hl H3 H4
    | s1 t1 s2 t2 lines s3 t3 s4 t4 H1 H2 Hl H3 H4 ].
  - destruct (Hq s0 _ _ H1) as [ -> _ ].
    exists [], [], []. repeat split; simpl; auto. lia.
  - destruct (Hq s1 _ _ H1) as [ -> Hp ]. destruct (Hp eq_refl) as [ parsed Hlen ].
    destruct (Hs _ _ _ _ H2) as (searches & -> & Hall & Hn).
    exists [], searches, parsed. repeat split; auto. lia.
  - destruct (Hq s1 _ _ H1) as [ -> Hp ]. destruct (Hp eq_refl) as [ parsed Hlen ].
    destruct (Hs _ _ _ _ H2) as (searches & -> & Hall & Hn).
    destruct (Hc _ _ _ _ _ H3) as [ p -> ].
    exists [LLMCall Pipeline.content_synthesiser_system p], searches, parsed.
    repeat split; eauto. lia.
  - destruct (Hq s1 _ _ H1) as [ -> Hp ]. destruct (Hp eq_refl) as [ parsed Hlen ].
    destruct (Hs _ _ _ _ H2) as (searches & -> & Hall & Hn).
    destruct (Hc _ _ _ _ _ H3) as [ p -> ].
    destruct (Hf _ _ _ _ H4) as [ p' -> ].
    exists [LLMCall (follow_up_system cfg) p'; LLMCall Pipeline.content_synthesiser_system p],
      searches, parsed.
    repeat split; eauto. lia.
  - destruct (Hq s1 _ _ H1) as [ -> Hp ]. destruct (Hp eq_refl) as [ parsed Hlen ].
    destruct (Hs _ _ _ _ H2) as (searches & -> & Hall & Hn).
    destruct (Hc _ _ _ _ _ H3) as [ p -> ].
    destruct (Hf _ _ _ _ H4) as [ p' -> ].
    exists [LLMCall (follow_up_system cfg) p'; LLMCall Pipeline.content_synthesiser_system p],
      searches, parsed.
    repeat split; eauto. lia.
Qed.

End Calls.

(** ** The final state of one execution *)

Section FinalState.

Variable W : World.
Variable cfg : Settings.

Lemma run_outcome_final (s0 final : ResearchState) (t0 t' : trace) :
  run_outcome W cfg s0 t0 final t' ->
  current_step final = "complete"
  /\ user_query final = user_query s0
  /\ (errors final = errors s0
      \/ exists stage e,
           In stage stage_names
           /\ errors final = List.app (errors s0) [stage ++ ": " ++ exn_str e]).
Proof.
  intros Hrun.
  destruct Hrun as
    [ e t1 H1
    | s1 t1 e t2 H1 H2
    | s1 t1 s2 t2 lines e t3 H1 H2 Hl H3
    | s1 t1 s2 t2 lines s3 t3 e t4 H1 H2 Hl H3 H4
    | s1 t1 s2 t2 lines s3 t3 s4 t4 H1 H2 Hl H3 H4 ];
    try (destruct (try_query_analyser_returns _ _ _ _ H1) as [ qs -> ]);
    try (destruct (try_search_executor_returns _ _ _ _ H2) as (rs & -> & _));
    try (destruct (try_content_synthesiser_returns _ _ _ _ H3) as [ text -> ]);
    try (destruct (try_follow_up_generator_returns _ _ _ _ H4) as [ fqs -> ]);
    (split; [ reflexivity | split; [ reflexivity | ] ]);
    simpl; unfold stage_names.
  - right. exists "query_analyser", e. simpl. tauto.
  - right. exists "search_executor", e. simpl. tauto.
  - right. exists "content_synthesiser", e. simpl. tauto.
  - right. exists "follow_up_generator", e. simpl. tauto.
  - left. reflexivity.
Qed.

Local Abbreviation g := (Pipeline.build_graph W cfg).

Lemma invoke_outcome (s0 : ResearchState) (t0 : trace) :
  exists final t',
    invoke g s0 t0 = (inr final, t') /\ run_outcome W cfg s0 t0 final t'.
Proof.
  destruct (execute_outcome W cfg s0 t0) as (final & ups & t' & Hex & Hrun).
  exists final, t'. split; [ | exact Hrun ].
  unfold invoke, bind. rewrite Hex. reflexivity.
Qed.

Lemma stream_outcome (s0 : ResearchState) (t0 : trace) :
  exists ups final t',
    stream g s0 t0 = (inr ups, t') /\ run_outcome W cfg s0 t0 final t'.
Proof.
  destruct (execute_outcome W cfg s0 t0) as (final & ups & t' & Hex & Hrun).
  exists ups, final, t'. split; [ | exact Hrun ].
  unfold stream, bind. rewrite Hex. reflexivity.
Qed.

End FinalState.

(** [run_research_workflow] of [main.py] is one execution, reported. *)
Lemma main_run (W : World) (q : string) (t : trace) :
  exists final t',
    Main.run_research_workflow W q t = (inr (report_of final (Some [])), t')
    /\ invoke (Main.build_graph W) (initial_state q) t = (inr final, t')
    /\ run_outcome W Main.settings (initial_state q) t final t'.
Proof.
  destruct (invoke_outcome W Main.settings (initial_state q) t)
    as (final & t' & Hinv & Hrun).
  exists final, t'. split; [ | split; assumption ].
  unfold Main.run_research_workflow, Main.build_graph, bind.
  rewrite Hinv. reflexivity.
Qed.

(** [run_research_workflow] of [agents.py] is two executions; the second one
    starts from the same initial state and is the one reported. *)
Lemma agents_run (W : World) (q : string) (t : trace) :
  exists streamed t1 final t',
    Agents.run_research_workflow W q t = (inr (report_of final None), t')
    /\ run_outcome W Agents.settings (initial_state q) t streamed t1
    /\ invoke (Agents.build_graph W) (initial_state q) t1 = (inr final, t')
    /\ run_outcome W Agents.settings (initial_state q) t1 final t'.
Proof.
  destruct (stream_outcome W Agents.settings (initial_state q) t)
    as (ups & streamed & t1 & Hstr & Hrun1).
  destruct (invoke_outcome W Agents.settings (initial_state q) t1)
    as (final & t' & Hinv & Hrun2).
  exists streamed, t1, final, t'. repeat split; try assumption.
  unfold Agents.run_research_workflow, Agents.build_graph, bind.
  rewrite Hstr, Hinv. reflexivity.
Qed.

(** ** Frame: what the stages leave alone *)

Section Frame.

Variable W : World.
Variable cfg : Settings.

Lemma caught_user_query (stage : string) (s s' : ResearchState)
    (r : (exn + ResearchState) * trace) (t' : trace) :
  (forall s1 t1, r = (inr s1, t1) -> user_query s1 = user_query s) ->
  caught stage s r = (inr s', t') ->
  user_query s' = user_query s.
Proof.
  intros Hok. destruct r as [ [ e | s1 ] t1 ]; simpl; intros H; inversion H; subst.
  - reflexivity.
  - now apply (Hok s' t').
Qed.

Lemma query_analyser_user_query (s s' : ResearchState) (t t' : trace) :
  Pipeline.query_analyser W cfg s t = (inr s', t') -> user_query s' = user_query s.
Proof.
  rewrite query_analyser_caught. apply caught_user_query.
  intros s1 t1 H. apply try_query_analyser_returns in H as [ qs -> ]. reflexivity.
Qed.

Lemma search_executor_user_query (s s' : ResearchState) (t t' : trace) :
  Pipeline.search_executor W cfg s t = (inr s', t') -> user_query s' = user_query s.
Proof.
  rewrite search_executor_caught. apply caught_user_query.
  intros s1 t1 H. apply try_search_executor_returns in H as (rs & -> & _). reflexivity.
Qed.

Lemma content_synthesiser_user_query (s s' : ResearchState) (t t' : trace) :
  Pipeline.content_synthesiser W s t = (inr s', t') -> user_query s' = user_query s.
Proof.
  destruct (Pipeline.format_sources W 0 (search_results s)) as [ e | lines ] eqn:Hl.
  - unfold Pipeline.content_synthesiser, bind, lift. rewrite Hl. discriminate.
  - rewrite (content_synthesiser_caught _ _ _ Hl). apply caught_user_query.
    intros s1 t1 H. apply try_content_synthesiser_returns in H as [ text -> ].
    reflexivity.
Qed.

Lemma follow_up_generator_user_query (s s' : ResearchState) (t t' : trace) :
  Pipeline.follow_up_generator W cfg s t = (inr s', t') -> user_query s' = user_query s.
Proof.
  rewrite follow_up_generator_caught. apply caught_user_query.
  intros s1 t1 H. apply try_follow_up_generator_returns in H as [ qs -> ]. reflexivity.
Qed.

End Frame.

(** ** The claims about the error path, termination and the frame *)

(** C6. Once a stage has set [current_step] to the error tag, the graph
    routes to the error node, whatever the stage was; [error_handler] returns
    the state with only [current_step] changed, to ["complete"] -- [errors]
    and the five other fields are the ones it was given -- it makes no
    external call, and from there the only edge leads to [END]. *)
Theorem error_handler_only_completes (W : World) (cfg : Settings)
    (s : ResearchState) (t : trace) :
  current_step s = "error" ->
  (forall stage, In stage stage_names ->
     next_node (Pipeline.build_graph W cfg) stage s = inr (Some "error"))
  /\ (exists s',
        Pipeline.error_handler s t = (inr s', t)
        /\ current_step s' = "complete"
        /\ errors s' = errors s
        /\ user_query s' = user_query s
        /\ search_queries s' = search_queries s
        /\ search_results s' = search_results s
        /\ research_summary s' = research_summary s
        /\ follow_up_questions s' = follow_up_questions s
        /\ next_node (Pipeline.build_graph W cfg) "error" s' = inr None
        /\ forall limit ups,
             run_from (S limit) (Pipeline.build_graph W cfg) "error" s ups t
             = (inr (s', ups ++ [("error", s')])%list, t)).
Proof.
  intros Herr. split.
  - intros stage Hstage. now apply route_to_error.
  - exists (set_current_step s "complete").
    repeat split; intros; first [ reflexivity | apply run_from_error ].
Qed.

(** C8. No stage changes [user_query]: whenever one of the five stage
    functions returns, the state it returns has the [user_query] it was
    given; and in both files [run_research_workflow] returns a report whose
    [original_query] is the question it was called with. *)
Theorem user_query_never_mutated (W : World) (cfg : Settings) :
  (forall stage s t s' t',
     In stage [Pipeline.query_analyser W cfg; Pipeline.search_executor W cfg;
               Pipeline.content_synthesiser W; Pipeline.follow_up_generator W cfg;
               Pipeline.error_handler] ->
     stage s t = (inr s', t') ->
     user_query s' = user_query s)
  /\ (forall question t, exists report t',
        Main.run_research_workflow W question t = (inr report, t')
        /\ original_query report = question)
  /\ (forall question t, exists report t',
        Agents.run_research_workflow W question t = (inr report, t')
        /\ original_query report = question).
Proof.
  split; [ | split ].
  - intros stage s t s' t' Hin Hrun. simpl in Hin.
    destruct Hin as [ <- | [ <- | [ <- | [ <- | [ <- | [] ] ] ] ] ].
    + eapply query_analyser_user_query; eassumption.
    + eapply search_executor_user_query; eassumption.
    + eapply content_synthesiser_user_query; eassumption.
    + eapply follow_up_generator_user_query; eassumption.
    + inversion Hrun. reflexivity.
  - intros question t.
    destruct (main_run W question t) as (final & t' & Hrun & _ & Hout).
    exists (report_of final (Some [])), t'. split; [ exact Hrun | ].
    apply run_outcome_final in Hout as (_ & Hq & _). exact Hq.
  - intros question t.
    destruct (agents_run W question t) as (streamed & t1 & final & t' & Hrun & _ & _ & Hout).
    exists (report_of final None), t'. split; [ exact Hrun | ].
    apply run_outcome_final in Hout as (_ & Hq & _). exact Hq.
Qed.

(** C9. In both files the run returns, and the [errors] of the final state
    it reports hold at most one entry. *)
Theorem at_most_one_error (W : World) (question : string) (t : trace) :
  (exists final t',
     invoke (Main.build_graph W) (initial_state question) t = (inr final, t')
     /\ Main.run_research_workflow W question t = (inr (report_of final (Some [])), t')
     /\ List.length (errors final) <= 1)
  /\ (exists t1 final t',
        invoke (Agents.build_graph W) (initial_state question) t1 = (inr final, t')
        /\ Agents.run_research_workflow W question t = (inr (report_of final None), t')
        /\ List.length (errors final) <= 1).
Proof.
  split.
  - destruct (main_run W question t) as (final & t' & Hrun & Hinv & Hout).
    exists final, t'. repeat split; try assumption.
    apply run_outcome_final in Hout as (_ & _ & [ -> | (stage & e & _ & ->) ]);
      simpl; lia.
  - destruct (agents_run W question t) as (streamed & t1 & final & t' & Hrun & _ & Hinv & Hout).
    exists t1, final, t'. repeat split; try assumption.
    apply run_outcome_final in Hout as (_ & _ & [ -> | (stage & e & _ & ->) ]);
      simpl; lia.
Qed.

(** C7. For every question and whatever the collaborators do, the run
    returns a report: the graph execution ends in a final state whose
    [current_step] is ["complete"], reached along one of the five outcomes
    (a stage's failure is in [errors] and the fields set before it are kept),
    and the report carries that state's fields, [errors] included. *)
Theorem run_terminates_complete (W : World) (question : string) (t : trace) :
  (exists final t',
     Main.run_research_workflow W question t = (inr (report_of final (Some [])), t')
     /\ invoke (Main.build_graph W) (initial_state question) t = (inr final, t')
     /\ run_outcome W Main.settings (initial_state question) t final t'
     /\ current_step final = "complete")
  /\ (exists streamed t1 final t',
        Agents.run_research_workflow W question t = (inr (report_of final None), t')
        /\ run_outcome W Agents.settings (initial_state question) t streamed t1
        /\ invoke (Agents.build_graph W) (initial_state question) t1 = (inr final, t')
        /\ run_outcome W Agents.settings (initial_state question) t1 final t'
        /\ current_step final = "complete").
Proof.
  split.
  - destruct (main_run W question t) as (final & t' & Hrun & Hinv & Hout).
    exists final, t'. repeat split; try assumption.
    now apply run_outcome_final in Hout.
  - destruct (agents_run W question t)
      as (streamed & t1 & final & t' & Hrun & Hstr & Hinv & Hout).
    exists streamed, t1, final, t'. repeat split; try assumption.
    now apply run_outcome_final in Hout.
Qed.

(** ** Failures *)

(** Two runs of the same block from the same state and trace agree. *)
Ltac same_run :=
  repeat match goal with
         | H : ?a = ?b, H' : ?a = ?c |- _ =>
             rewrite H in H'; inversion H'; subst; clear H'
         end.

(** The [try] block of a completion stage raises exactly when the
    completion call or the parse of its content does. *)
Lemma try_query_analyser_raises (W : World) (cfg : Settings) (s : ResearchState)
    (t t' : trace) (e : exn) :
  try_query_analyser W cfg s t = (inl e, t')
  <-> t' = LLMCall (query_system cfg) (Pipeline.query_analyser_prompt W cfg s) :: t
      /\ (llm_reply W t (query_system cfg) (Pipeline.query_analyser_prompt W cfg s) = inl e
          \/ exists content,
               llm_reply W t (query_system cfg) (Pipeline.query_analyser_prompt W cfg s)
               = inr content
               /\ parse_SearchQueries W content = inl e).
Proof.
  unfold try_query_analyser. rewrite query_analyser_try_eq.
  destruct (llm_reply W t _ _) as [ e' | content ].
  - split.
    + intros H. inversion H. split; [ reflexivity | left; reflexivity ].
    + intros (-> & [ H | (c & H & _) ]); inversion H. reflexivity.
  - destruct (parse_SearchQueries W content) as [ e' | parsed ] eqn:Hp.
    + split.
      * intros H. inversion H. subst. split; [ reflexivity | right ].
        exists content. split; [ reflexivity | exact Hp ].
      * intros (-> & [ H | (c & H & Hc) ]); inversion H; subst.
        rewrite Hp in Hc. inversion Hc. reflexivity.
    + split.
      * intros H. inversion H.
      * intros (-> & [ H | (c & H & Hc) ]); inversion H; subst.
        rewrite Hp in Hc. inversion Hc.
Qed.

(** C3. When the [try] block of a stage raises [e] (its completion call,
    search call or parse failed) after the earlier stages returned, the final
    state of the execution has [errors] equal to the single entry
    ["<stage>: <str(e)>"], and the fields set by that stage and by the later
    ones still hold the empty values of the initial state. *)
Theorem failure_reaches_final_state (W : World) (cfg : Settings)
    (question : string) (t0 : trace) :
  (forall e t1,
     try_query_analyser W cfg (initial_state question) t0 = (inl e, t1) ->
     exists final,
       invoke (Pipeline.build_graph W cfg) (initial_state question) t0 = (inr final, t1)
       /\ errors final = ["query_analyser: " ++ exn_str e]
       /\ search_queries final = []
       /\ search_results final = []
       /\ research_summary final = ""
       /\ follow_up_questions final = [])
  /\ (forall s1 t1 e t2,
        try_query_analyser W cfg (initial_state question) t0 = (inr s1, t1) ->
        try_search_executor W cfg s1 t1 = (inl e, t2) ->
        exists final,
          invoke (Pipeline.build_graph W cfg) (initial_state question) t0 = (inr final, t2)
          /\ errors final = ["search_executor: " ++ exn_str e]
          /\ search_queries final = search_queries s1
          /\ search_results final = []
          /\ research_summary final = ""
          /\ follow_up_questions final = [])
  /\ (forall s1 t1 s2 t2 lines e t3,
        try_query_analyser W cfg (initial_state question) t0 = (inr s1, t1) ->
        try_search_executor W cfg s1 t1 = (inr s2, t2) ->
        Pipeline.format_sources W 0 (search_results s2) = inr lines ->
        try_content_synthesiser W s2 lines t2 = (inl e, t3) ->
        exists final,
          invoke (Pipeline.build_graph W cfg) (initial_state question) t0 = (inr final, t3)
          /\ errors final = ["content_synthesiser: " ++ exn_str e]
          /\ search_queries final = search_queries s1
          /\ search_results final = search_results s2
          /\ research_summary final = ""
          /\ follow_up_questions final = [])
  /\ (forall s1 t1 s2 t2 lines s3 t3 e t4,
        try_query_analyser W cfg (initial_state question) t0 = (inr s1, t1) ->
        try_search_executor W cfg s1 t1 = (inr s2, t2) ->
        Pipeline.format_sources W 0 (search_results s2) = inr lines ->
        try_content_synthesiser W s2 lines t2 = (inr s3, t3) ->
        try_follow_up_generator W cfg s3 t3 = (inl e, t4) ->
        exists final,
          invoke (Pipeline.build_graph W cfg) (initial_state question) t0 = (inr final, t4)
          /\ errors final = ["follow_up_generator: " ++ exn_str e]
          /\ search_queries final = search_queries s1
          /\ search_results final = search_results s2
          /\ research_summary final = research_summary s3
          /\ follow_up_questions final = []).
Proof.
  destruct (invoke_outcome W cfg (initial_state question) t0)
    as (final & t' & Hinv & Hout).
  repeat split; intros; exists final;
    destruct Hout as
      [ e' u1 K1
      | r1 u1 e' u2 K1 K2
      | r1 u1 r2 u2 lines' e' u3 K1 K2 Kl K3
      | r1 u1 r2 u2 lines' r3 u3 e' u4 K1 K2 Kl K3 K4
      | r1 u1 r2 u2 lines' r3 u3 r4 u4 K1 K2 Kl K3 K4 ];
    same_run;
    (split; [ exact Hinv | ]);
    repeat match goal with
           | H : try_query_analyser _ _ _ _ = (inr _, _) |- _ =>
               apply try_query_analyser_returns in H as [ ? -> ]
           | H : try_search_executor _ _ _ _ = (inr _, _) |- _ =>
               apply try_search_executor_returns in H as (? & -> & _)
           | H : try_content_synthesiser _ _ _ _ = (inr _, _) |- _ =>
               apply try_content_synthesiser_returns in H as [ ? -> ]
           end;
    repeat split.
Qed.

(** ** Query analysis *)

(** C2, as the code has it.  When the completion parses, [query_analyser]
    sets [search_queries] to the query strings of the parsed list under the
    file's slice, in order, and advances to ["search_executor"]; it leaves
    [errors] alone.  In [main.py] the slice is [[:3]]: the first three,
    or all of them when fewer than three were parsed.  In [agents.py] there
    is no slice: all of them. *)
Theorem query_analyser_keeps_parsed_queries (W : World) (cfg : Settings)
    (s : ResearchState) (t : trace) (content : string) (parsed : list SearchQuery) :
  llm_reply W t (query_system cfg) (Pipeline.query_analyser_prompt W cfg s) = inr content ->
  parse_SearchQueries W content = inr parsed ->
  exists s',
    Pipeline.query_analyser W cfg s t
    = (inr s', LLMCall (query_system cfg) (Pipeline.query_analyser_prompt W cfg s) :: t)
    /\ search_queries s' = map query (sliced (query_slice cfg) parsed)
    /\ current_step s' = "search_executor"
    /\ errors s' = errors s
    /\ (cfg = Main.settings ->
        search_queries s' = map query (firstn 3 parsed)
        /\ List.length (search_queries s') = Nat.min 3 (List.length parsed))
    /\ (cfg = Agents.settings -> search_queries s' = map query parsed).
Proof.
  intros Hreply Hparse.
  eexists. split.
  - rewrite query_analyser_caught, query_analyser_try_eq, Hreply, Hparse. reflexivity.
  - simpl. split; [ reflexivity | ]. split; [ reflexivity | ].
    split; [ reflexivity | ]. split; intros ->; simpl.
    + split; [ reflexivity | ]. rewrite length_map. apply length_firstn.
    + reflexivity.
Qed.

(** ** Search execution *)

Section Search.

Variable W : World.
Variable cfg : Settings.

Lemma search_each_app (qs1 qs2 : list string) :
  forall results t,
    Pipeline.search_each W cfg results (qs1 ++ qs2) t
    = match Pipeline.search_each W cfg results qs1 t with
      | (inr rs, t1) => Pipeline.search_each W cfg rs qs2 t1
      | (inl e, t1) => (inl e, t1)
      end.
Proof.
  induction qs1 as [ | q qs1 IH ]; intros results t; simpl.
  - reflexivity.
  - unfold bind.
    destruct (SerperSearchTool_invoke W (search_tool cfg) q t) as [ [ e | found ] t1 ].
    + reflexivity.
    + apply IH.
Qed.

Lemma search_each_searched (qs : list string) (t t' : trace) (rss : list (list pydict)) :
  searched W (search_tool cfg) qs t rss t' ->
  forall results,
    Pipeline.search_each W cfg results qs t = (inr (results ++ List.concat rss)%list, t').
Proof.
  induction 1 as [ t | q qs t rs t1 rss t2 Hq _ IH ]; intros results; simpl.
  - now rewrite app_nil_r.
  - unfold bind. rewrite Hq, IH. now rewrite app_assoc.
Qed.

End Search.

(** C4. In both files (any settings): when the search for some query [q]
    raises [e] -- the searches for the queries [qs1] before it having
    returned the result lists [rss] -- [search_executor] returns the state it
    was given with only [errors] extended by ["search_executor: <str(e)>"]
    and [current_step] set to ["error"], from where the graph goes to the
    error node: [search_results] is the one it was given (empty in a run),
    none of [rss] is kept, and the queries [qs2] after [q] are not searched. *)
Theorem search_executor_all_or_nothing (W : World) (cfg : Settings)
    (s : ResearchState) (t : trace) (qs1 : list string) (q : string)
    (qs2 : list string) (rss : list (list pydict)) (t1 : trace) (e : exn)
    (t2 : trace) :
  search_queries s = (qs1 ++ q :: qs2)%list ->
  searched W (search_tool cfg) qs1 t rss t1 ->
  SerperSearchTool_invoke W (search_tool cfg) q t1 = (inl e, t2) ->
  exists s',
    Pipeline.search_executor W cfg s t = (inr s', t2)
    /\ search_results s' = search_results s
    /\ (search_results s = [] -> search_results s' = [])
    /\ errors s' = List.app (errors s) ["search_executor: " ++ exn_str e]
    /\ current_step s' = "error"
    /\ next_node (Pipeline.build_graph W cfg) "search_executor" s' = inr (Some "error")
    /\ user_query s' = user_query s
    /\ search_queries s' = search_queries s
    /\ research_summary s' = research_summary s
    /\ follow_up_questions s' = follow_up_questions s.
Proof.
  intros Hqs Hbefore Hfail.
  exists (stage_failed "search_executor" s e). split.
  - rewrite search_executor_caught.
    unfold Pipeline.search_executor_try, bind.
    rewrite Hqs, search_each_app.
    erewrite search_each_searched by eassumption. simpl. unfold bind.
    rewrite Hfail. reflexivity.
  - repeat split; auto.
Qed.

(** C5. In both files (any settings): when the searches for the queries of
    the state all return, in order, the result lists [rss],
    [search_executor] sets [search_results] to their concatenation in that
    order -- all results of a query before all results of the next -- and
    advances to ["content_synthesiser"]. *)
Theorem search_results_query_major (W : World) (cfg : Settings)
    (s : ResearchState) (t t' : trace) (rss : list (list pydict)) :
  searched W (search_tool cfg) (search_queries s) t rss t' ->
  exists s',
    Pipeline.search_executor W cfg s t = (inr s', t')
    /\ search_results s' = List.concat rss
    /\ current_step s' = "content_synthesiser".
Proof.
  intros Hsearched.
  eexists. split.
  - rewrite search_executor_caught.
    unfold Pipeline.search_executor_try, bind.
    erewrite search_each_searched by eassumption. reflexivity.
  - split; reflexivity.
Qed.

(** ** What [invoke] returns *)

(** C10, as the code has it.  For a limit [k >= 0] and a body that
    decodes to a JSON object whose ["organic"] entry, when present, is a list
    of objects, [invoke] returns: one entry per item among the first [k], in
    order, none skipped, so at most [k]; no entry when ["organic"] is absent;
    each entry with exactly the keys ["title"], ["url"] and ["content"],
    holding the item's ["title"], ["link"] and ["snippet"], or [None] where
    the item lacks the key. *)
Theorem invoke_on_object_bodies (W : World) (self : SerperSearchTool) (q : string)
    (t : trace) (resp : Response) (d : pydict) (ds : list pydict) :
  (0 <= k self)%Z ->
  http_reply W t q (k self) = inr resp ->
  ((400 <=? status_code resp) && (status_code resp <? 600))%Z = false ->
  json resp = inr (PyDict d) ->
  organic_is d ds ->
  exists rs,
    SerperSearchTool_invoke W self q t = (inr rs, SearchCall q (k self) :: t)
    /\ rs = map entry_of (firstn (Z.to_nat (k self)) ds)
    /\ (Z.of_nat (List.length rs) <= k self)%Z
    /\ List.length rs = Nat.min (Z.to_nat (k self)) (List.length ds)
    /\ (dict_find "organic" d = None -> rs = [])
    /\ Forall (fun r => map fst r = ["title"; "url"; "content"]) rs
    /\ (forall item, dict_item "title" (entry_of item)
                     = inr (match dict_find "title" item with Some v => v | None => PyNone end))
    /\ (forall item, dict_item "url" (entry_of item)
                     = inr (match dict_find "link" item with Some v => v | None => PyNone end))
    /\ (forall item, dict_item "content" (entry_of item)
                     = inr (match dict_find "snippet" item with Some v => v | None => PyNone end)).
Proof.
  intros Hk Hreply Hstatus Hjson Horganic.
  exists (map entry_of (firstn (Z.to_nat (k self)) ds)).
  split; [ | split; [ reflexivity | ] ].
  - rewrite (invoke_on_body self W q t Hreply Hstatus Hjson).
    f_equal. unfold read_results, organic_slice. unfold organic_is in Horganic.
    destruct (dict_find "organic" d) as [ v | ]; subst.
    + rewrite py_slice_to_firstn by exact Hk.
      rewrite firstn_map. apply append_results_dicts.
    + rewrite py_slice_to_firstn by exact Hk.
      rewrite !firstn_nil. reflexivity.
  - rewrite length_map, length_firstn.
    split; [ lia | ]. split; [ reflexivity | ].
    split.
    + unfold organic_is in Horganic. intros Hnone. rewrite Hnone in Horganic.
      subst ds. now rewrite firstn_nil.
    + split; [ | repeat split ].
      apply Forall_forall. intros r Hin.
      apply in_map_iff in Hin as (item & <- & _). reflexivity.
Qed.

(** ** How often the collaborators are called *)

Lemma llm_calls_cons (system system' prompt : string) (t : trace) :
  llm_calls system (LLMCall system' prompt :: t)
  = (if String.eqb system' system then 1 else 0) + llm_calls system t.
Proof.
  unfold llm_calls. simpl. destruct (String.eqb system' system); reflexivity.
Qed.

Lemma search_calls_cons (system prompt : string) (t : trace) :
  search_calls (LLMCall system prompt :: t) = search_calls t.
Proof. reflexivity. Qed.

(** One execution asks for exactly one query-analysis completion, for at
    most one completion of each other kind, and searches at most once per
    query kept. *)
Lemma run_outcome_calls (W : World) (cfg : Settings) (s0 final : ResearchState)
    (t0 t' : trace) :
  distinct_systems cfg ->
  run_outcome W cfg s0 t0 final t' ->
  llm_calls (query_system cfg) t' = S (llm_calls (query_system cfg) t0)
  /\ llm_calls Pipeline.content_synthesiser_system t'
     <= S (llm_calls Pipeline.content_synthesiser_system t0)
  /\ llm_calls (follow_up_system cfg) t' <= S (llm_calls (follow_up_system cfg) t0)
  /\ exists parsed : list SearchQuery,
       search_calls t' <= search_calls t0 + List.length (sliced (query_slice cfg) parsed).
Proof.
  intros (Hqc & Hfc & Hqf) Hrun.
  apply run_outcome_trace in Hrun
    as (later & searches & parsed & -> & Hall & Hlen & Hlater).
  assert (Eqq : String.eqb (query_system cfg) (query_system cfg) = true)
    by apply String.eqb_refl.
  assert (Ecc : String.eqb Pipeline.content_synthesiser_system
                  Pipeline.content_synthesiser_system = true)
    by apply String.eqb_refl.
  assert (Eff : String.eqb (follow_up_system cfg) (follow_up_system cfg) = true)
    by apply String.eqb_refl.
  assert (Eqc : String.eqb (query_system cfg) Pipeline.content_synthesiser_system = false)
    by now apply String.eqb_neq.
  assert (Ecq : String.eqb Pipeline.content_synthesiser_system (query_system cfg) = false)
    by (apply String.eqb_neq; congruence).
  assert (Efc : String.eqb (follow_up_system cfg) Pipeline.content_synthesiser_system = false)
    by now apply String.eqb_neq.
  assert (Ecf : String.eqb Pipeline.content_synthesiser_system (follow_up_system cfg) = false)
    by (apply String.eqb_neq; congruence).
  assert (Eqf : String.eqb (query_system cfg) (follow_up_system cfg) = false)
    by now apply String.eqb_neq.
  assert (Efq : String.eqb (follow_up_system cfg) (query_system cfg) = false)
    by (apply String.eqb_neq; congruence).
  rewrite !llm_calls_app, !search_calls_app, !llm_calls_cons, search_calls_cons.
  rewrite !(llm_calls_searches _ _ Hall), (search_calls_searches _ Hall).
  rewrite Eqq, Eqc, Eqf.
  destruct Hlater as [ -> | [ (p & ->) | (p & p' & ->) ] ];
    rewrite ?llm_calls_cons, ?Ecc, ?Eff, ?Ecq, ?Efc, ?Ecf, ?Efq;
    (repeat split; [ simpl; lia .. | exists parsed; simpl; lia ]).
Qed.

Lemma main_distinct_systems : distinct_systems Main.settings.
Proof. repeat split; apply String.eqb_neq; reflexivity. Qed.

Lemma agents_distinct_systems : distinct_systems Agents.settings.
Proof. repeat split; apply String.eqb_neq; reflexivity. Qed.

(** X19. [main.py]: every stage's calls are made at most once per run, the
    query-analysis completion exactly once, and at most three searches. *)
Lemma main_calls_once (W : World) (question : string) (t : trace) :
  exists report t',
    Main.run_research_workflow W question t = (inr report, t')
    /\ llm_calls (query_system Main.settings) t'
       = 1 + llm_calls (query_system Main.settings) t
    /\ llm_calls Pipeline.content_synthesiser_system t'
       <= 1 + llm_calls Pipeline.content_synthesiser_system t
    /\ llm_calls (follow_up_system Main.settings) t'
       <= 1 + llm_calls (follow_up_system Main.settings) t
    /\ search_calls t' <= search_calls t + 3.
Proof.
  destruct (main_run W question t) as (final & t' & Hrun & _ & Hout).
  exists (report_of final (Some [])), t'. split; [ exact Hrun | ].
  apply (run_outcome_calls main_distinct_systems) in Hout
    as (Hq & Hc & Hf & parsed & Hs).
  repeat split; try assumption.
  assert (List.length (sliced (query_slice Main.settings) parsed) <= 3).
  { change (sliced (query_slice Main.settings) parsed) with (py_slice_to 3 parsed).
    rewrite py_slice_to_length by lia. change (Z.to_nat 3) with 3. lia. }
  lia.
Qed.

(** C1 on [agents.py]: [run_research_workflow] executes the graph for
    [wf.stream] and again for [wf.invoke], so every run asks for the
    query-analysis completion twice. *)
Theorem agents_runs_query_analysis_twice (W : World) (question : string) (t : trace) :
  exists report t',
    Agents.run_research_workflow W question t = (inr report, t')
    /\ llm_calls (query_system Agents.settings) t'
       = 2 + llm_calls (query_system Agents.settings) t.
Proof.
  destruct (agents_run W question t)
    as (streamed & t1 & final & t' & Hrun & Hout1 & _ & Hout2).
  exists (report_of final None), t'. split; [ exact Hrun | ].
  apply (run_outcome_calls agents_distinct_systems) in Hout1 as (Hq1 & _).
  apply (run_outcome_calls agents_distinct_systems) in Hout2 as (Hq2 & _).
  rewrite Hq2, Hq1. reflexivity.
Qed.

(** ** The theorems at concrete inputs *)

(** Scenario A: every collaborator answers.  [main.py] makes six calls,
    [agents.py] the same six twice. *)
Example happy_run_calls :
  fst (Main.run_research_workflow happy_world "What is photosynthesis?" [])
  = inr {| original_query := "What is photosynthesis?";
           report_search_queries := ["q1"; "q2"; "q3"];
           report_research_summary := "Photosynthesis converts light to chemical energy.";
           report_follow_up_questions := ["f1"; "f2"];
           report_errors := [];
           progress := Some [] |}
  /\ List.length (snd (Main.run_research_workflow happy_world "What is photosynthesis?" [])) = 6
  /\ List.length (snd (Agents.run_research_workflow happy_world "What is photosynthesis?" [])) = 12
  /\ search_calls (snd (Main.run_research_workflow happy_world "What is photosynthesis?" [])) = 3
  /\ search_calls (snd (Agents.run_research_workflow happy_world "What is photosynthesis?" [])) = 6.
Proof. repeat split. Qed.

(** C2 as stated fails: in [main.py] a completion that parses to two queries
    is no failure, the two are kept and the run goes on to the searches; in
    [agents.py] a completion that parses to four queries keeps all four. *)
Lemma short_reply_is_not_a_failure :
  parse_SearchQueries short_world "ok" = inr two_queries
  /\ List.length two_queries = 2
  /\ Main.query_analyser short_world (initial_state "What is photosynthesis?") []
     = (inr (set_current_step
               (set_search_queries (initial_state "What is photosynthesis?") ["q1"; "q2"])
               "search_executor"),
        [LLMCall (query_system Main.settings)
           (Pipeline.query_analyser_prompt short_world Main.settings
              (initial_state "What is photosynthesis?"))])
  /\ Agents.query_analyser long_world (initial_state "What is photosynthesis?") []
     = (inr (set_current_step
               (set_search_queries (initial_state "What is photosynthesis?")
                  ["q1"; "q2"; "q3"; "q4"])
               "search_executor"),
        [LLMCall (query_system Agents.settings)
           (Pipeline.query_analyser_prompt long_world Agents.settings
              (initial_state "What is photosynthesis?"))]).
Proof. repeat split. Qed.

Lemma query_analyser_keeps_parsed_queries_witness :
  llm_reply short_world [] (query_system Main.settings)
    (Pipeline.query_analyser_prompt short_world Main.settings (initial_state "q"))
  = inr "ok"
  /\ parse_SearchQueries short_world "ok" = inr two_queries
  /\ exists s' t',
       Pipeline.query_analyser short_world Main.settings (initial_state "q") [] = (inr s', t')
       /\ search_queries s' = ["q1"; "q2"]
       /\ current_step s' = "search_executor".
Proof.
  split; [ reflexivity | split; [ reflexivity | ] ].
  destruct (@query_analyser_keeps_parsed_queries short_world Main.settings
              (initial_state "q") [] "ok" two_queries eq_refl eq_refl)
    as (s' & Hrun & Hqs & Hstep & _).
  exists s'. eexists. split; [ exact Hrun | ]. split; [ exact Hqs | exact Hstep ].
Defined.

(** Scenario B: the endpoint fails on the second query. *)
Lemma failure_reaches_final_state_witness :
  exists final t',
    invoke (Pipeline.build_graph outage_world Main.settings)
      (initial_state "What is photosynthesis?") [] = (inr final, t')
    /\ errors final = ["search_executor: connection refused"]
    /\ search_queries final = ["q1"; "q2"; "q3"]
    /\ search_results final = []
    /\ research_summary final = ""
    /\ follow_up_questions final = [].
Proof.
  destruct (failure_reaches_final_state outage_world Main.settings
              "What is photosynthesis?" []) as (_ & Hsearch & _).
  edestruct Hsearch as (final & Hrun & He & Hq & Hr & Hs & Hf);
    [ reflexivity | reflexivity | ].
  exists final. eexists. split; [ exact Hrun | ]. repeat split; assumption.
Defined.

Lemma search_executor_all_or_nothing_witness :
  exists s' t',
    Pipeline.search_executor outage_world Main.settings
      (set_search_queries (initial_state "q") ["q1"; "q2"; "q3"]) [] = (inr s', t')
    /\ search_results s' = []
    /\ errors s' = ["search_executor: connection refused"]
    /\ current_step s' = "error".
Proof.
  edestruct (@search_executor_all_or_nothing outage_world Main.settings
               (set_search_queries (initial_state "q") ["q1"; "q2"; "q3"]) []
               ["q1"] "q2" ["q3"])
    as (s' & Hrun & Hsame & _ & He & Hstep & _).
  - reflexivity.
  - eapply searched_cons; [ reflexivity | apply searched_nil ].
  - reflexivity.
  - exists s'. eexists. split; [ exact Hrun | ]. repeat split; assumption.
Defined.

(** The ordering example: [q1] returns [r1a; r1b] and [q2] returns [r2a]. *)
Lemma search_results_query_major_witness :
  exists s' t',
    Pipeline.search_executor ordering_world Main.settings
      (set_search_queries (initial_state "q") ["q1"; "q2"]) [] = (inr s', t')
    /\ search_results s'
       = [ [("title", PyStr "r1a"); ("url", PyStr "http://1a"); ("content", PyStr "a")];
           [("title", PyStr "r1b"); ("url", PyStr "http://1b"); ("content", PyStr "b")];
           [("title", PyStr "r2a"); ("url", PyStr "http://2a"); ("content", PyStr "a")] ].
Proof.
  edestruct (@search_results_query_major ordering_world Main.settings
               (set_search_queries (initial_state "q") ["q1"; "q2"]) [])
    as (s' & Hrun & Hrs & _).
  - eapply searched_cons; [ reflexivity | ].
    eapply searched_cons; [ reflexivity | ].
    apply searched_nil.
  - exists s'. eexists. split; [ exact Hrun | exact Hrs ].
Defined.

Lemma error_handler_only_completes_witness :
  current_step (stage_failed "query_analyser" (initial_state "q") ValidationError) = "error"
  /\ exists s',
       Pipeline.error_handler
         (stage_failed "query_analyser" (initial_state "q") ValidationError) []
       = (inr s', [])
       /\ current_step s' = "complete"
       /\ errors s' = ["query_analyser: Failed to parse"].
Proof.
  split; [ reflexivity | ].
  destruct (@error_handler_only_completes garbled_world Main.settings
              (stage_failed "query_analyser" (initial_state "q") ValidationError) []
              eq_refl)
    as (_ & s' & Hrun & Hstep & He & _).
  exists s'. split; [ exact Hrun | ]. split; [ exact Hstep | exact He ].
Defined.

Lemma user_query_never_mutated_witness :
  Pipeline.search_executor outage_world Main.settings
    (set_search_queries (initial_state "q") ["q1"; "q2"; "q3"]) []
  = (inr (stage_failed "search_executor"
            (set_search_queries (initial_state "q") ["q1"; "q2"; "q3"]) ConnectionError),
     [SearchCall "q2" 5; SearchCall "q1" 5])
  /\ user_query
       (stage_failed "search_executor"
          (set_search_queries (initial_state "q") ["q1"; "q2"; "q3"]) ConnectionError)
     = user_query (set_search_queries (initial_state "q") ["q1"; "q2"; "q3"]).
Proof.
  split; [ reflexivity | ].
  destruct (user_query_never_mutated outage_world Main.settings) as (Hstage & _).
  apply (Hstage (Pipeline.search_executor outage_world Main.settings)
           (set_search_queries (initial_state "q") ["q1"; "q2"; "q3"]) []
           _ [SearchCall "q2" 5; SearchCall "q1" 5]);
    [ simpl; tauto | reflexivity ].
Defined.

(** C10 as stated fails: a body whose ["organic"] is [null] makes [invoke]
    raise, and with a negative limit more than [k] entries come back. *)
Lemma invoke_raises_on_null_organic :
  SerperSearchTool_invoke null_organic_world {| k := 10 |} "q" []
  = (inl (Exn "TypeError" "'NoneType' object is not subscriptable"),
     [SearchCall "q" 10])
  /\ exists rs,
       SerperSearchTool_invoke sparse_world {| k := -1 |} "q" []
       = (inr rs, [SearchCall "q" (-1)])
       /\ List.length rs = 2
       /\ (-1 < Z.of_nat (List.length rs))%Z.
Proof.
  split; [ reflexivity | ].
  eexists. split; [ reflexivity | ]. split; [ reflexivity | reflexivity ].
Qed.

Lemma invoke_on_object_bodies_witness :
  exists rs,
    SerperSearchTool_invoke sparse_world {| k := 5 |} "q" [] = (inr rs, [SearchCall "q" 5])
    /\ rs = [ [("title", PyStr "only a title"); ("url", PyNone); ("content", PyNone)];
              [("title", PyNone); ("url", PyNone); ("content", PyNone)];
              [("title", PyNone); ("url", PyStr "http://c"); ("content", PyNone)] ].
Proof.
  edestruct (@invoke_on_object_bodies sparse_world {| k := 5 |} "q" [])
    as (rs & Hrun & Hrs & _).
  - simpl. lia.
  - reflexivity.
  - reflexivity.
  - reflexivity.
  - unfold organic_is. simpl.
    instantiate (1 := [ [("title", PyStr "only a title")]; [];
                        [("link", PyStr "http://c")] ]).
    reflexivity.
  - exists rs. split; [ exact Hrun | exact Hrs ].
Defined.

(** * Further properties *)

(** ** More on SerperSearchTool *)

(** The loop returns only when every item it went through was a dict. *)
Lemma append_results_returns (items : list pyval) :
  forall results rs,
    append_results results items = inr rs ->
    exists ds, items = map PyDict ds /\ rs = (results ++ map entry_of ds)%list.
Proof.
  induction items as [ | item items IH ]; intros results rs Hrun; simpl in Hrun.
  - exists []. inversion Hrun. now rewrite app_nil_r.
  - destruct item as [ | | | | | | d ]; simpl in Hrun; try discriminate.
    apply IH in Hrun as (ds & -> & ->).
    exists (d :: ds). simpl. now rewrite <- app_assoc.
Qed.

(** X1. With a limit [k >= 0] and a body whose ["organic"] is a list, the
    body is read successfully exactly when the first [k] items are all
    objects, and the entries are theirs: an item past the limit is never
    looked at, and one item among the first [k] that is no object loses the
    whole call. *)
Theorem read_results_first_k_only (self : SerperSearchTool) (d : pydict)
    (items : list pyval) (rs : list pydict) :
  (0 <= k self)%Z ->
  dict_find "organic" d = Some (PyList items) ->
  read_results self (PyDict d) = inr rs
  <-> exists ds,
        firstn (Z.to_nat (k self)) items = map PyDict ds /\ rs = map entry_of ds.
Proof.
  intros Hk Horganic. unfold read_results, organic_slice.
  rewrite Horganic, py_slice_to_firstn by exact Hk. split.
  - intros Hrun. apply append_results_returns in Hrun as (ds & Hds & ->).
    exists ds. split; [ exact Hds | reflexivity ].
  - intros (ds & -> & ->). apply append_results_dicts.
Qed.

Lemma read_results_first_k_only_witness :
  read_results {| k := 2 |}
    (PyDict [("organic", PyList [PyDict [("title", PyStr "a")]; PyDict []; PyInt 7])])
  = inr [entry_of [("title", PyStr "a")]; entry_of []].
Proof.
  apply (@read_results_first_k_only {| k := 2 |}
           [("organic", PyList [PyDict [("title", PyStr "a")]; PyDict []; PyInt 7])]
           [PyDict [("title", PyStr "a")]; PyDict []; PyInt 7]).
  - simpl. lia.
  - reflexivity.
  - exists [[("title", PyStr "a")]; []]. split; reflexivity.
Defined.

Lemma read_results_returns (self : SerperSearchTool) (data : pyval) (rs : list pydict) :
  (0 <= k self)%Z ->
  read_results self data = inr rs ->
  exists ds, rs = map entry_of ds /\ List.length ds <= Z.to_nat (k self).
Proof.
  intros Hk. unfold read_results.
  destruct (organic_slice self data) as [ e | items ] eqn:Hslice; [ discriminate | ].
  intros Hrun. apply append_results_returns in Hrun as (ds & Hds & ->).
  exists ds. split; [ reflexivity | ].
  assert (Hlen : List.length items <= Z.to_nat (k self)).
  { unfold organic_slice in Hslice.
    destruct data as [ | | | | | | d ]; try discriminate.
    destruct (match dict_find "organic" d with Some v => v | None => PyList [] end);
      try discriminate; inversion Hslice;
      rewrite py_slice_to_length by exact Hk; lia. }
  rewrite Hds, length_map in Hlen. exact Hlen.
Qed.

(** X2. Whatever the endpoint sends, when [invoke] returns with a limit
    [k >= 0] it has made exactly one request, returns at most [k] entries,
    and every entry has exactly the keys ["title"], ["url"], ["content"], in
    that order. *)
Theorem invoke_returns_keyed_entries (W : World) (self : SerperSearchTool)
    (q : string) (t t' : trace) (rs : list pydict) :
  (0 <= k self)%Z ->
  SerperSearchTool_invoke W self q t = (inr rs, t') ->
  t' = SearchCall q (k self) :: t
  /\ (Z.of_nat (List.length rs) <= k self)%Z
  /\ Forall (fun r => map fst r = result_keys) rs.
Proof.
  intros Hk Hrun.
  pose proof (invoke_trace self W q t) as Ht. rewrite Hrun in Ht. simpl in Ht.
  split; [ exact Ht | ].
  assert (Hread : exists data, read_results self data = inr rs).
  { revert Hrun.
    unfold SerperSearchTool_invoke, bind, requests_post, raise_for_status, lift.
    destruct (http_reply W t q (k self)) as [ e | resp ]; [ discriminate | ].
    destruct ((400 <=? status_code resp) && (status_code resp <? 600))%Z;
      [ discriminate | ].
    unfold ret. destruct (json resp) as [ e | data ]; [ discriminate | ].
    intros H. inversion H. eauto. }
  destruct Hread as (data & Hread).
  apply read_results_returns in Hread as (ds & -> & Hlen); [ | exact Hk ].
  rewrite length_map. split; [ lia | ].
  apply Forall_forall. intros r Hin.
  apply in_map_iff in Hin as (item & <- & _). reflexivity.
Qed.

Lemma invoke_returns_keyed_entries_witness :
  exists rs t',
    SerperSearchTool_invoke sparse_world {| k := 2 |} "q" [] = (inr rs, t')
    /\ t' = [SearchCall "q" 2]
    /\ (Z.of_nat (List.length rs) <= 2)%Z
    /\ Forall (fun r => map fst r = result_keys) rs.
Proof.
  eexists. eexists. split; [ reflexivity | ].
  eapply (@invoke_returns_keyed_entries sparse_world {| k := 2 |} "q" []).
  - simpl. lia.
  - reflexivity.
Defined.

(** X3. An answer with a 4xx or 5xx status makes [invoke] raise the HTTP
    error whatever its body holds; with any other status the body decides. *)
Theorem invoke_checks_status_first (W : World) (self : SerperSearchTool) (q : string)
    (t : trace) (resp : Response) :
  http_reply W t q (k self) = inr resp ->
  ((400 <= status_code resp < 600)%Z ->
   SerperSearchTool_invoke W self q t
   = (inl (http_error W (status_code resp)), SearchCall q (k self) :: t))
  /\ ((status_code resp < 400 \/ 600 <= status_code resp)%Z ->
      SerperSearchTool_invoke W self q t
      = (match json resp with
         | inl e => inl e
         | inr data => read_results self data
         end, SearchCall q (k self) :: t)).
Proof.
  intros Hreply.
  unfold SerperSearchTool_invoke, bind, requests_post, raise_for_status, lift.
  rewrite Hreply. split; intros Hstatus.
  - replace ((400 <=? status_code resp) && (status_code resp <? 600))%Z with true;
      [ reflexivity | ].
    symmetry. apply andb_true_iff. split; [ apply Z.leb_le | apply Z.ltb_lt ]; lia.
  - replace ((400 <=? status_code resp) && (status_code resp <? 600))%Z with false.
    + unfold ret. destruct (json resp); reflexivity.
    + symmetry. apply andb_false_iff.
      destruct Hstatus; [ left; apply Z.leb_gt | right; apply Z.ltb_ge ]; lia.
Qed.

Lemma invoke_checks_status_first_witness :
  SerperSearchTool_invoke unavailable_world {| k := 5 |} "q" []
  = (inl (Exn "HTTPError" "Server Error"), [SearchCall "q" 5]).
Proof.
  apply (@invoke_checks_status_first unavailable_world {| k := 5 |} "q" []
           {| status_code := 503; json := inr sparse_body |} eq_refl).
  simpl. lia.
Defined.

(** ** More on the stages *)

Lemma searched_trace (W : World) (tool : SerperSearchTool) (qs : list string)
    (t t' : trace) (rss : list (list pydict)) :
  searched W tool qs t rss t' -> t' = (requests tool qs ++ t)%list.
Proof.
  unfold requests.
  induction 1 as [ t | q qs t rs t1 rss t2 Hq _ IH ]; [ reflexivity | ].
  pose proof (invoke_trace tool W q t) as Ht. rewrite Hq in Ht. simpl in Ht.
  subst t1. rewrite IH. simpl. now rewrite <- app_assoc.
Qed.

(** X4. [search_executor] asks the endpoint for the queries of the state in
    their order, once each and each with the tool's limit, and makes no other
    call: when all searches return, the new calls are the requests for all
    the queries; when the search for [q] raises, they are the requests for
    the queries up to [q], and the queries after [q] are never sent. *)
Theorem search_executor_requests_in_order (W : World) (cfg : Settings)
    (s : ResearchState) (t : trace) :
  (forall rss t',
     searched W (search_tool cfg) (search_queries s) t rss t' ->
     snd (Pipeline.search_executor W cfg s t)
     = (requests (search_tool cfg) (search_queries s) ++ t)%list)
  /\ (forall qs1 q qs2 rss t1 e t2,
        search_queries s = (qs1 ++ q :: qs2)%list ->
        searched W (search_tool cfg) qs1 t rss t1 ->
        SerperSearchTool_invoke W (search_tool cfg) q t1 = (inl e, t2) ->
        snd (Pipeline.search_executor W cfg s t)
        = (requests (search_tool cfg) (qs1 ++ [q]) ++ t)%list).
Proof.
  split.
  - intros rss t' Hsearched.
    rewrite search_executor_caught.
    unfold Pipeline.search_executor_try, bind.
    erewrite search_each_searched by eassumption. simpl.
    eapply searched_trace; eassumption.
  - intros qs1 q qs2 rss t1 e t2 Hqs Hbefore Hfail.
    rewrite search_executor_caught.
    unfold Pipeline.search_executor_try, bind.
    rewrite Hqs, search_each_app.
    erewrite search_each_searched by eassumption. simpl. unfold bind.
    rewrite Hfail. simpl.
    pose proof (invoke_trace (search_tool cfg) W q t1) as Ht.
    rewrite Hfail in Ht. simpl in Ht. subst t2.
    apply searched_trace in Hbefore. subst t1.
    unfold requests. rewrite map_app, rev_app_distr. reflexivity.
Qed.

Lemma search_executor_requests_in_order_witness :
  snd (Pipeline.search_executor outage_world Main.settings
         (set_search_queries (initial_state "q") ["q1"; "q2"; "q3"]) [])
  = [SearchCall "q2" 5; SearchCall "q1" 5].
Proof.
  destruct (search_executor_requests_in_order outage_world Main.settings
              (set_search_queries (initial_state "q") ["q1"; "q2"; "q3"]) [])
    as (_ & Hfail).
  eapply (Hfail ["q1"] "q2" ["q3"]).
  - reflexivity.
  - eapply searched_cons; [ reflexivity | apply searched_nil ].
  - reflexivity.
Defined.

Lemma format_sources_returns (W : World) (rs : list pydict) :
  forall i lines,
    Pipeline.format_sources W i rs = inr lines ->
    Forall well_keyed rs /\ List.length lines = List.length rs.
Proof.
  induction rs as [ | r rs IH ]; intros i lines Hrun; simpl in Hrun.
  - inversion Hrun. split; [ constructor | reflexivity ].
  - unfold Pipeline.format_source, dict_item in Hrun.
    destruct (dict_find "title" r) as [ title | ] eqn:Ht; [ | discriminate ].
    destruct (dict_find "url" r) as [ url | ] eqn:Hu; [ | discriminate ].
    destruct (dict_find "content" r) as [ content | ] eqn:Hc; [ | discriminate ].
    destruct (Pipeline.format_sources W (S i) rs) as [ e | rest ] eqn:Hrest;
      [ discriminate | ].
    inversion Hrun. destruct (IH _ _ Hrest) as (Hall & Hlen).
    split; [ | simpl; now rewrite Hlen ].
    constructor; [ | exact Hall ]. exists title, url, content. auto.
Qed.

Lemma format_sources_raises (W : World) (rs : list pydict) :
  forall i e,
    Pipeline.format_sources W i rs = inl e ->
    exists key, In key result_keys /\ e = KeyError key.
Proof.
  induction rs as [ | r rs IH ]; intros i e Hrun; simpl in Hrun; [ discriminate | ].
  unfold Pipeline.format_source, dict_item in Hrun.
  destruct (dict_find "title" r);
    [ | inversion Hrun; exists "title"; simpl; tauto ].
  destruct (dict_find "url" r);
    [ | inversion Hrun; exists "url"; simpl; tauto ].
  destruct (dict_find "content" r);
    [ | inversion Hrun; exists "content"; simpl; tauto ].
  destruct (Pipeline.format_sources W (S i) rs) as [ e' | rest ] eqn:Hrest;
    [ | discriminate ].
  inversion Hrun; subst. eapply IH; eassumption.
Qed.

(** X5. [content_synthesiser] formats the sources before its [try]: when
    every search result carries the three keys it asks for one completion and
    returns (with the summary, or with its failure recorded); when some result
    lacks a key it raises KeyError for that key, without asking for a
    completion and without recording anything in [errors]. *)
Theorem content_synthesiser_needs_keyed_results (W : World) (s : ResearchState)
    (t : trace) :
  (Forall well_keyed (search_results s) ->
   exists s' prompt,
     Pipeline.content_synthesiser W s t
     = (inr s', LLMCall Pipeline.content_synthesiser_system prompt :: t))
  /\ (~ Forall well_keyed (search_results s) ->
      exists key,
        In key result_keys
        /\ Pipeline.content_synthesiser W s t = (inl (KeyError key), t)).
Proof.
  split.
  - intros Hkeys.
    destruct (format_sources_total W Hkeys 0) as [ lines Hlines ].
    rewrite (content_synthesiser_caught _ _ _ Hlines), content_synthesiser_try_eq.
    destruct (llm_reply W t _ _) as [ e | content ]; [ simpl; eauto | ].
    destruct (parse_ResearchSummary W content); simpl; eauto.
  - intros Hbad.
    destruct (Pipeline.format_sources W 0 (search_results s)) as [ e | lines ] eqn:Hl.
    + destruct (format_sources_raises _ _ _ Hl) as (key & Hin & ->).
      exists key. split; [ exact Hin | ].
      unfold Pipeline.content_synthesiser, bind, lift. rewrite Hl. reflexivity.
    + apply format_sources_returns in Hl as (Hall & _). contradiction.
Qed.

Lemma content_synthesiser_needs_keyed_results_witness :
  exists key,
    In key result_keys
    /\ Pipeline.content_synthesiser happy_world
         (set_search_results (initial_state "q") [[("title", PyStr "no url")]]) []
       = (inl (KeyError key), []).
Proof.
  destruct (content_synthesiser_needs_keyed_results happy_world
              (set_search_results (initial_state "q") [[("title", PyStr "no url")]]) [])
    as (_ & Hbad).
  apply Hbad. simpl. intros Hall. inversion Hall as [ | r rs (a & b & c & _ & Hu & _) _ ].
  discriminate Hu.
Defined.

(** X6. When the completion parses, [follow_up_generator] sets
    [follow_up_questions] to the question strings of the parsed list under
    the file's slice, in order, leaves [errors] alone and sets [current_step]
    to ["complete"], from where the run ends.  In [main.py] the slice is
    [[:2]]: the first two, or all when fewer were parsed, even none.  In
    [agents.py] there is no slice. *)
Theorem follow_up_generator_keeps_parsed_questions (W : World) (cfg : Settings)
    (s : ResearchState) (t : trace) (content : string)
    (parsed : list FollowUpQuestion) :
  llm_reply W t (follow_up_system cfg) (Pipeline.follow_up_generator_prompt W cfg s)
  = inr content ->
  parse_FollowUpQuestions W content = inr parsed ->
  exists s',
    Pipeline.follow_up_generator W cfg s t
    = (inr s',
       LLMCall (follow_up_system cfg) (Pipeline.follow_up_generator_prompt W cfg s) :: t)
    /\ follow_up_questions s' = map question (sliced (follow_up_slice cfg) parsed)
    /\ current_step s' = "complete"
    /\ next_node (Pipeline.build_graph W cfg) "follow_up_generator" s' = inr None
    /\ errors s' = errors s
    /\ research_summary s' = research_summary s
    /\ (cfg = Main.settings ->
        follow_up_questions s' = map question (firstn 2 parsed)
        /\ List.length (follow_up_questions s') = Nat.min 2 (List.length parsed))
    /\ (cfg = Agents.settings -> follow_up_questions s' = map question parsed).
Proof.
  intros Hreply Hparse.
  eexists. split.
  - rewrite follow_up_generator_caught, follow_up_generator_try_eq, Hreply, Hparse.
    reflexivity.
  - simpl. split; [ reflexivity | ]. split; [ reflexivity | ].
    split; [ reflexivity | ]. split; [ reflexivity | ]. split; [ reflexivity | ].
    split; intros ->; simpl.
    + split; [ reflexivity | ]. rewrite length_map. apply length_firstn.
    + reflexivity.
Qed.

Lemma follow_up_generator_keeps_parsed_questions_witness :
  exists s' t',
    Pipeline.follow_up_generator happy_world Main.settings (initial_state "q") []
    = (inr s', t')
    /\ follow_up_questions s' = ["f1"; "f2"]
    /\ current_step s' = "complete".
Proof.
  destruct (@follow_up_generator_keeps_parsed_questions happy_world Main.settings
              (initial_state "q") [] "ok" two_follow_ups eq_refl eq_refl)
    as (s' & Hrun & Hqs & Hstep & _).
  exists s'. eexists. split; [ exact Hrun | ]. split; [ exact Hqs | exact Hstep ].
Defined.

(** ** More on the graph execution *)

Lemma run_from_S (limit : nat) (g : StateGraph) (name : string) (s : ResearchState)
    (ups : list (string * ResearchState)) (t : trace) :
  run_from (S limit) g name s ups t
  = match assoc name (nodes g) with
    | None => (inl (KeyError name), t)
    | Some f =>
        match f s t with
        | (inl e, t1) => (inl e, t1)
        | (inr s', t1) =>
            match next_node g name s' with
            | inl e => (inl e, t1)
            | inr None => (inr (s', ups ++ [(name, s')])%list, t1)
            | inr (Some target) =>
                run_from limit g target s' (ups ++ [(name, s')])%list t1
            end
        end
    end.
Proof.
  simpl. destruct (assoc name (nodes g)) as [ f | ]; [ | reflexivity ].
  unfold bind. destruct (f s t) as [ [ e | s' ] t1 ]; [ reflexivity | ].
  destruct (next_node g name s') as [ e | [ target | ] ]; reflexivity.
Qed.

(** An execution that returned within some limit returns the same within
    any larger one. *)
Lemma run_from_more_fuel (g : StateGraph) (limit : nat) :
  forall name s ups t x t',
    run_from limit g name s ups t = (inr x, t') ->
    run_from (S limit) g name s ups t = (inr x, t').
Proof.
  induction limit as [ | limit IH ]; intros name s ups t x t' Hrun.
  - discriminate Hrun.
  - rewrite run_from_S in Hrun. rewrite run_from_S.
    destruct (assoc name (nodes g)) as [ f | ]; [ | discriminate ].
    destruct (f s t) as [ [ e | s' ] t1 ]; [ discriminate | ].
    destruct (next_node g name s') as [ e | [ target | ] ];
      [ discriminate | | exact Hrun ].
    apply IH. exact Hrun.
Qed.

Lemma run_from_enough_fuel (g : StateGraph) (limit extra : nat) :
  forall name s ups t x t',
    run_from limit g name s ups t = (inr x, t') ->
    run_from (extra + limit) g name s ups t = (inr x, t').
Proof.
  induction extra as [ | extra IH ]; intros name s ups t x t' Hrun; simpl plus.
  - exact Hrun.
  - apply run_from_more_fuel. now apply IH.
Qed.

Lemma snoc_differs (A : Type) (l : list A) (x : A) : (l ++ [x])%list <> l.
Proof.
  intros H. apply (f_equal (@List.length A)) in H.
  rewrite length_app in H. simpl in H. lia.
Qed.

Section Path.

Variable W : World.
Variable cfg : Settings.

Local Abbreviation g := (Pipeline.build_graph W cfg).

Lemma run_from_failed_path (limit : nat) (stage : string) (f : node_fn)
    (s : ResearchState) (e : exn) (ups : list (string * ResearchState))
    (t t' : trace) :
  In stage stage_names ->
  assoc stage (nodes g) = Some f ->
  f s t = (inr (stage_failed stage s e), t') ->
  run_from (S (S limit)) g stage s ups t
  = (inr (handled stage s e,
          ((ups ++ [(stage, stage_failed stage s e)])
             ++ [("error", handled stage s e)])%list), t').
Proof.
  intros Hstage Hnode Hrun.
  rewrite (@run_from_step _ g stage f s _ ups t t' (Some "error") Hnode Hrun).
  - apply run_from_error.
  - apply route_to_error; [ exact Hstage | reflexivity ].
Qed.

(** Five nodes are enough: the execution from the entry point, the updates
    it yields and the outcome it reaches. *)
Lemma run_from_five (s0 : ResearchState) (t0 : trace) :
  exists final ups t',
    run_from 5 g "query_analyser" s0 [] t0 = (inr (final, ups), t')
    /\ run_outcome W cfg s0 t0 final t'
    /\ (exists name before, ups = (before ++ [(name, final)])%list)
    /\ ((errors final = errors s0 /\ map fst ups = stage_names)
        \/ (exists n, 1 <= n <= 4
                      /\ map fst ups = (firstn n stage_names ++ ["error"])%list
                      /\ errors final <> errors s0)).
Proof.
  destruct (try_query_analyser W cfg s0 t0) as [ [ e | s1 ] t1 ] eqn:H1.
  { rewrite (@run_from_failed_path 3 "query_analyser" (Pipeline.query_analyser W cfg)
               s0 e [] t0 t1);
      [ | simpl; tauto | reflexivity
        | rewrite query_analyser_caught; fold (try_query_analyser W cfg s0);
          rewrite H1; reflexivity ].
    eexists _, _, _. split; [ reflexivity | ]. split; [ now constructor | ].
    split; [ eexists _, _; reflexivity | ].
    right. exists 1. repeat split; try lia. simpl. apply snoc_differs. }
  destruct (try_query_analyser_returns _ _ _ _ H1) as [ qs Hs1 ].
  rewrite (@run_from_step _ g "query_analyser" (Pipeline.query_analyser W cfg)
             s0 s1 [] t0 t1 (Some "search_executor"));
    [ | reflexivity
      | rewrite query_analyser_caught; fold (try_query_analyser W cfg s0);
        rewrite H1; reflexivity
      | apply route_to_search_executor; subst s1; reflexivity ].
  destruct (try_search_executor W cfg s1 t1) as [ [ e | s2 ] t2 ] eqn:H2.
  { rewrite (@run_from_failed_path 2 "search_executor" (Pipeline.search_executor W cfg)
               s1 e _ t1 t2);
      [ | simpl; tauto | reflexivity
        | rewrite search_executor_caught; fold (try_search_executor W cfg s1);
          rewrite H2; reflexivity ].
    eexists _, _, _. split; [ reflexivity | ].
    split; [ econstructor; eassumption | ].
    split; [ eexists _, _; reflexivity | ].
    right. exists 2. repeat split; try lia. subst s1. simpl. apply snoc_differs. }
  destruct (try_search_executor_returns _ _ _ _ H2) as (rs & Hs2 & Hkeys).
  rewrite (@run_from_step _ g "search_executor" (Pipeline.search_executor W cfg)
             s1 s2 _ t1 t2 (Some "content_synthesiser"));
    [ | reflexivity
      | rewrite search_executor_caught; fold (try_search_executor W cfg s1);
        rewrite H2; reflexivity
      | apply route_to_content_synthesiser; subst s2; reflexivity ].
  destruct (@format_sources_total W (search_results s2)) with (i := 0)
    as [ lines Hlines ]; [ subst s2; exact Hkeys | ].
  destruct (try_content_synthesiser W s2 lines t2) as [ [ e | s3 ] t3 ] eqn:H3.
  { rewrite (@run_from_failed_path 1 "content_synthesiser"
               (Pipeline.content_synthesiser W) s2 e _ t2 t3);
      [ | simpl; tauto | reflexivity
        | rewrite (content_synthesiser_caught _ _ _ Hlines);
          fold (try_content_synthesiser W s2 lines); rewrite H3; reflexivity ].
    eexists _, _, _. split; [ reflexivity | ].
    split; [ econstructor; eassumption | ].
    split; [ eexists _, _; reflexivity | ].
    right. exists 3. repeat split; try lia. subst s2 s1. simpl. apply snoc_differs. }
  destruct (try_content_synthesiser_returns _ _ _ _ H3) as [ text Hs3 ].
  rewrite (@run_from_step _ g "content_synthesiser" (Pipeline.content_synthesiser W)
             s2 s3 _ t2 t3 (Some "follow_up_generator"));
    [ | reflexivity
      | rewrite (content_synthesiser_caught _ _ _ Hlines);
        fold (try_content_synthesiser W s2 lines); rewrite H3; reflexivity
      | apply route_to_follow_up_generator; subst s3; reflexivity ].
  destruct (try_follow_up_generator W cfg s3 t3) as [ [ e | s4 ] t4 ] eqn:H4.
  { rewrite (@run_from_failed_path 0 "follow_up_generator"
               (Pipeline.follow_up_generator W cfg) s3 e _ t3 t4);
      [ | simpl; tauto | reflexivity
        | rewrite follow_up_generator_caught; fold (try_follow_up_generator W cfg s3);
          rewrite H4; reflexivity ].
    eexists _, _, _. split; [ reflexivity | ].
    split; [ econstructor; eassumption | ].
    split; [ eexists _, _; reflexivity | ].
    right. exists 4. repeat split; try lia. subst s3 s2 s1. simpl. apply snoc_differs. }
  destruct (try_follow_up_generator_returns _ _ _ _ H4) as [ fqs Hs4 ].
  rewrite (@run_from_step _ g "follow_up_generator" (Pipeline.follow_up_generator W cfg)
             s3 s4 _ t3 t4 None);
    [ | reflexivity
      | rewrite follow_up_generator_caught; fold (try_follow_up_generator W cfg s3);
        rewrite H4; reflexivity
      | apply route_to_end; subst s4; reflexivity ].
  eexists _, _, _. split; [ reflexivity | ].
  split; [ econstructor; eassumption | ].
  split; [ eexists _, _; reflexivity | ].
  left. subst s4 s3 s2 s1. split; reflexivity.
Qed.

End Path.



(** X8. What [wf.stream] yields: one update per node run, in the order of
    the pipeline -- either the four stages, when none failed, or the stages up
    to the one that failed followed by the error node -- and the state of the
    last update is the final state [wf.invoke] returns from the same trace.
    The error node is among them exactly when [errors] has grown. *)
Theorem stream_follows_the_pipeline (W : World) (cfg : Settings)
    (s0 : ResearchState) (t0 : trace) :
  exists ups final t',
    stream (Pipeline.build_graph W cfg) s0 t0 = (inr ups, t')
    /\ invoke (Pipeline.build_graph W cfg) s0 t0 = (inr final, t')
    /\ (exists name before, ups = (before ++ [(name, final)])%list)
    /\ ((errors final = errors s0 /\ map fst ups = stage_names)
        \/ (exists n, 1 <= n <= 4
                      /\ map fst ups = (firstn n stage_names ++ ["error"])%list
                      /\ errors final <> errors s0))
    /\ (In "error" (map fst ups) <-> errors final <> errors s0).
Proof.
  destruct (run_from_five W cfg s0 t0) as (final & ups & t' & Hrun & _ & Hlast & Hpath).
  assert (Hex : execute (Pipeline.build_graph W cfg) s0 t0 = (inr (final, ups), t')).
  { unfold execute.
    change (entry_point (Pipeline.build_graph W cfg)) with (Some "query_analyser").
    now apply (run_from_enough_fuel _ 5 20). }
  exists ups, final, t'.
  split; [ unfold stream, bind; rewrite Hex; reflexivity | ].
  split; [ unfold invoke, bind; rewrite Hex; reflexivity | ].
  split; [ exact Hlast | ]. split; [ exact Hpath | ].
  destruct Hpath as [ (He & ->) | (n & Hn & -> & He) ].
  - split; [ | congruence ].
    unfold stage_names. simpl. intros [ H | [ H | [ H | [ H | [] ] ] ] ]; discriminate.
  - split; [ intros _; exact He | intros _ ].
    apply in_or_app. right. simpl. tauto.
Qed.

(** ** More on the final state *)

Lemma invoke_length (W : World) (self : SerperSearchTool) (q : string)
    (t t' : trace) (rs : list pydict) :
  (0 <= k self)%Z ->
  SerperSearchTool_invoke W self q t = (inr rs, t') ->
  List.length rs <= Z.to_nat (k self).
Proof.
  intros Hk.
  unfold SerperSearchTool_invoke, bind, requests_post, raise_for_status, lift.
  destruct (http_reply W t q (k self)) as [ e | resp ]; [ discriminate | ].
  destruct ((400 <=? status_code resp) && (status_code resp <? 600))%Z;
    [ discriminate | ].
  unfold ret. destruct (json resp) as [ e | data ]; [ discriminate | ].
  intros H. inversion H as [ [ Hread Ht ] ].
  apply read_results_returns in Hread as (ds & -> & Hlen); [ | exact Hk ].
  now rewrite length_map.
Qed.

Section Bounds.

Variable W : World.
Variable cfg : Settings.

Lemma try_query_analyser_returns_sliced (s s1 : ResearchState) (t t1 : trace) :
  try_query_analyser W cfg s t = (inr s1, t1) ->
  exists parsed,
    s1 = set_current_step
           (set_search_queries s (map query (sliced (query_slice cfg) parsed)))
           "search_executor".
Proof.
  unfold try_query_analyser. rewrite query_analyser_try_eq.
  destruct (llm_reply W t _ _) as [ e | content ]; [ discriminate | ].
  destruct (parse_SearchQueries W content) as [ e | parsed ]; [ discriminate | ].
  intros H. inversion H. eauto.
Qed.

Lemma try_follow_up_generator_returns_sliced (s s4 : ResearchState) (t t4 : trace) :
  try_follow_up_generator W cfg s t = (inr s4, t4) ->
  exists parsed,
    s4 = set_current_step
           (set_follow_up_questions s (map question (sliced (follow_up_slice cfg) parsed)))
           "complete".
Proof.
  unfold try_follow_up_generator. rewrite follow_up_generator_try_eq.
  destruct (llm_reply W t _ _) as [ e | content ]; [ discriminate | ].
  destruct (parse_FollowUpQuestions W content) as [ e | parsed ]; [ discriminate | ].
  intros H. inversion H. eauto.
Qed.

Lemma run_outcome_follow_ups (question : string) (t0 t' : trace) (final : ResearchState) :
  run_outcome W cfg (initial_state question) t0 final t' ->
  (errors final <> [] -> follow_up_questions final = [])
  /\ (errors final <> [] -> research_summary final <> "" ->
      exists e, errors final = ["follow_up_generator: " ++ exn_str e]).
Proof.
  intros Hrun.
  destruct Hrun as
    [ e t1 H1
    | s1 t1 e t2 H1 H2
    | s1 t1 s2 t2 lines e t3 H1 H2 Hl H3
    | s1 t1 s2 t2 lines s3 t3 e t4 H1 H2 Hl H3 H4
    | s1 t1 s2 t2 lines s3 t3 s4 t4 H1 H2 Hl H3 H4 ];
    try (apply try_query_analyser_returns in H1 as [ qs Hs1 ]);
    try (apply try_search_executor_returns in H2 as (rs & Hs2 & _));
    try (apply try_content_synthesiser_returns in H3 as [ text Hs3 ]);
    try (apply try_follow_up_generator_returns in H4 as [ fqs Hs4 ]);
    subst; simpl in *.
  all: split; intros; first [ reflexivity | congruence | eexists; reflexivity ].
Qed.

Hypothesis limit_positive : (0 <= k (search_tool cfg))%Z.

Lemma search_each_length (qs : list string) :
  forall results t rs t',
    Pipeline.search_each W cfg results qs t = (inr rs, t') ->
    List.length rs
    <= List.length results + Z.to_nat (k (search_tool cfg)) * List.length qs.
Proof.
  induction qs as [ | q qs IH ]; intros results t rs t' Hrun; simpl in Hrun.
  - inversion Hrun. lia.
  - unfold bind in Hrun.
    destruct (SerperSearchTool_invoke W (search_tool cfg) q t)
      as [ [ e | found ] t1 ] eqn:Hq; [ discriminate | ].
    apply IH in Hrun. rewrite length_app in Hrun.
    apply invoke_length in Hq; [ | exact limit_positive ]. simpl. nia.
Qed.

Lemma try_search_executor_returns_bounded (s s2 : ResearchState) (t t2 : trace) :
  try_search_executor W cfg s t = (inr s2, t2) ->
  exists rs,
    s2 = set_current_step (set_search_results s rs) "content_synthesiser"
    /\ List.length rs
       <= Z.to_nat (k (search_tool cfg)) * List.length (search_queries s).
Proof.
  unfold try_search_executor, Pipeline.search_executor_try, bind.
  destruct (Pipeline.search_each W cfg [] (search_queries s) t)
    as [ [ e | rs ] t' ] eqn:Hrun; [ discriminate | ].
  intros H. inversion H. exists rs. split; [ reflexivity | ].
  apply search_each_length in Hrun. simpl in Hrun. exact Hrun.
Qed.

(** What the fields of the final state can hold, for a run started from the
    initial state. *)
Lemma run_outcome_fields (question : string) (t0 t' : trace) (final : ResearchState) :
  run_outcome W cfg (initial_state question) t0 final t' ->
  (exists parsed : list SearchQuery,
     List.length (search_queries final)
     <= List.length (sliced (query_slice cfg) parsed))
  /\ List.length (search_results final)
     <= Z.to_nat (k (search_tool cfg)) * List.length (search_queries final)
  /\ (exists parsed : list FollowUpQuestion,
        List.length (follow_up_questions final)
        <= List.length (sliced (follow_up_slice cfg) parsed)).
Proof.
  intros Hrun.
  destruct Hrun as
    [ e t1 H1
    | s1 t1 e t2 H1 H2
    | s1 t1 s2 t2 lines e t3 H1 H2 Hl H3
    | s1 t1 s2 t2 lines s3 t3 e t4 H1 H2 Hl H3 H4
    | s1 t1 s2 t2 lines s3 t3 s4 t4 H1 H2 Hl H3 H4 ];
    try (apply try_query_analyser_returns_sliced in H1 as [ parsed Hs1 ]);
    try (apply try_search_executor_returns_bounded in H2 as (rs & Hs2 & Hlen));
    try (apply try_content_synthesiser_returns in H3 as [ text Hs3 ]);
    try (apply try_follow_up_generator_returns_sliced in H4 as [ fparsed Hs4 ]);
    subst; simpl in *.
  all: split; [ first [ exists parsed | exists [] ]; simpl; rewrite ?length_map; lia | ].
  all: split; [ simpl; rewrite ?length_map in *; lia | ].
  all: first [ exists fparsed | exists [] ]; simpl; rewrite ?length_map; lia.
Qed.

End Bounds.

(** X9. In [main.py] every run ends with at most 3 search queries, at
    most 15 search results (5 per query) and at most 2 follow-up questions,
    whatever the model and the endpoint send; the report carries the queries
    and the questions.  In [agents.py] neither list is bounded, and the
    results are at most 10 per query. *)
Theorem run_sizes (W : World) (question : string) (t : trace) :
  (exists final t',
     Main.run_research_workflow W question t = (inr (report_of final (Some [])), t')
     /\ List.length (search_queries final) <= 3
     /\ List.length (search_results final) <= 15
     /\ List.length (follow_up_questions final) <= 2)
  /\ (exists t1 final t',
        invoke (Agents.build_graph W) (initial_state question) t1 = (inr final, t')
        /\ Agents.run_research_workflow W question t = (inr (report_of final None), t')
        /\ List.length (search_results final) <= 10 * List.length (search_queries final)).
Proof.
  split.
  - destruct (main_run W question t) as (final & t' & Hrun & _ & Hout).
    exists final, t'. split; [ exact Hrun | ].
    apply run_outcome_fields in Hout
      as ((parsed & Hq) & Hr & (fparsed & Hf)); [ | simpl; lia ].
    change (sliced (query_slice Main.settings) parsed) with (py_slice_to 3 parsed) in Hq.
    change (sliced (follow_up_slice Main.settings) fparsed)
      with (py_slice_to 2 fparsed) in Hf.
    rewrite py_slice_to_length in Hq, Hf by lia.
    change (Z.to_nat 3) with 3 in Hq. change (Z.to_nat 2) with 2 in Hf.
    change (Z.to_nat (k (search_tool Main.settings))) with 5 in Hr.
    repeat split; lia.
  - destruct (agents_run W question t)
      as (streamed & t1 & final & t' & Hrun & _ & Hinv & Hout).
    exists t1, final, t'. split; [ exact Hinv | ]. split; [ exact Hrun | ].
    apply run_outcome_fields in Hout as (_ & Hr & _); [ | simpl; lia ].
    exact Hr.
Qed.

(** X10. In both files (any settings): a final state with an error has no
    follow-up question, and if it nevertheless has a summary, the error is
    the follow-up stage's. *)
Theorem errors_exclude_follow_ups (W : World) (cfg : Settings) (question : string)
    (t : trace) :
  exists final t',
    invoke (Pipeline.build_graph W cfg) (initial_state question) t = (inr final, t')
    /\ (errors final <> [] -> follow_up_questions final = [])
    /\ (errors final <> [] -> research_summary final <> "" ->
        exists e, errors final = ["follow_up_generator: " ++ exn_str e]).
Proof.
  destruct (invoke_outcome W cfg (initial_state question) t)
    as (final & t' & Hinv & Hout).
  exists final, t'. split; [ exact Hinv | ].
  now apply run_outcome_follow_ups in Hout.
Qed.

Lemma errors_exclude_follow_ups_witness :
  exists final t',
    invoke (Pipeline.build_graph no_follow_up_world Main.settings) (initial_state "q") []
    = (inr final, t')
    /\ errors final <> []
    /\ research_summary final <> ""
    /\ follow_up_questions final = []
    /\ exists e, errors final = ["follow_up_generator: " ++ exn_str e].
Proof.
  destruct (errors_exclude_follow_ups no_follow_up_world Main.settings "q" [])
    as (final & t' & Hinv & Hf & Hs).
  assert (He : errors final <> [] /\ research_summary final <> "").
  { pose proof Hinv as Hc. vm_compute in Hc. inversion Hc. split; discriminate. }
  destruct He as (He & Hsum).
  exists final, t'. split; [ exact Hinv | ].
  split; [ exact He | ]. split; [ exact Hsum | ].
  split; [ exact (Hf He) | exact (Hs He Hsum) ].
Defined.

(** X11. In both files (any settings): when the query-analysis completion
    parses to no query at all, that is no failure: the run sends no search
    request, keeps [search_results] empty, and still asks the model for a
    synthesis, with a prompt whose sources block is empty. *)
Theorem no_query_no_search (W : World) (cfg : Settings) (question : string)
    (t : trace) (content : string) (parsed : list SearchQuery) :
  llm_reply W t (query_system cfg)
    (Pipeline.query_analyser_prompt W cfg (initial_state question)) = inr content ->
  parse_SearchQueries W content = inr parsed ->
  sliced (query_slice cfg) parsed = [] ->
  exists final t',
    invoke (Pipeline.build_graph W cfg) (initial_state question) t = (inr final, t')
    /\ search_queries final = []
    /\ search_results final = []
    /\ search_calls t' = search_calls t
    /\ In (LLMCall Pipeline.content_synthesiser_system
             (Pipeline.content_synthesiser_prompt W (initial_state question) "")) t'.
Proof.
  intros Hreply Hparse Hnone.
  destruct (invoke_outcome W cfg (initial_state question) t)
    as (final & t' & Hinv & Hout).
  exists final, t'. split; [ exact Hinv | ].
  assert (Hq : try_query_analyser W cfg (initial_state question) t
               = (inr (set_current_step
                         (set_search_queries (initial_state question) [])
                         "search_executor"),
                  LLMCall (query_system cfg)
                    (Pipeline.query_analyser_prompt W cfg (initial_state question)) :: t)).
  { unfold try_query_analyser.
    rewrite query_analyser_try_eq, Hreply, Hparse, Hnone. reflexivity. }
  assert (Hs : forall s1 t1,
             search_queries s1 = [] ->
             try_search_executor W cfg s1 t1
             = (inr (set_current_step (set_search_results s1 []) "content_synthesiser"),
                t1)).
  { intros s1 t1 Hnil.
    unfold try_search_executor, Pipeline.search_executor_try, bind.
    rewrite Hnil. reflexivity. }
  assert (Hc : forall s2 lines t2 r t3,
             try_content_synthesiser W s2 lines t2 = (r, t3) ->
             t3 = LLMCall Pipeline.content_synthesiser_system
                    (Pipeline.content_synthesiser_prompt W s2 (String.concat nl lines))
                  :: t2).
  { intros s2 lines t2 r t3. unfold try_content_synthesiser.
    rewrite content_synthesiser_try_eq. intros H. now inversion H. }
  assert (Hf : forall s3 t3 r t4,
             try_follow_up_generator W cfg s3 t3 = (r, t4) ->
             exists p, t4 = LLMCall (follow_up_system cfg) p :: t3).
  { intros s3 t3 r t4. unfold try_follow_up_generator.
    rewrite follow_up_generator_try_eq. intros H. inversion H. eauto. }
  destruct Hout as
    [ e t1 H1
    | s1 t1 e t2 H1 H2
    | s1 t1 s2 t2 lines e t3 H1 H2 Hl H3
    | s1 t1 s2 t2 lines s3 t3 e t4 H1 H2 Hl H3 H4
    | s1 t1 s2 t2 lines s3 t3 s4 t4 H1 H2 Hl H3 H4 ];
    rewrite Hq in H1; inversion H1; subst s1 t1; clear H1;
    rewrite Hs in H2 by reflexivity; inversion H2; subst; clear H2;
    simpl in Hl; inversion Hl; subst lines; clear Hl;
    pose proof H3 as H3'; apply Hc in H3'; subst t3;
    try (apply try_content_synthesiser_returns in H3 as [ text -> ]);
    try (pose proof H4 as H4'; apply Hf in H4' as [ p -> ]);
    try (apply try_follow_up_generator_returns in H4 as [ fqs -> ]);
    repeat split; simpl; tauto.
Qed.

Lemma no_query_no_search_witness :
  exists final t',
    invoke (Pipeline.build_graph no_query_world Main.settings)
      (initial_state "What is photosynthesis?") [] = (inr final, t')
    /\ search_queries final = []
    /\ search_results final = []
    /\ search_calls t' = 0
    /\ errors final = [].
Proof.
  destruct (@no_query_no_search no_query_world Main.settings "What is photosynthesis?"
              [] "ok" [] eq_refl eq_refl eq_refl)
    as (final & t' & Hinv & Hq & Hr & Hcalls & _).
  exists final, t'. split; [ exact Hinv | ].
  split; [ exact Hq | ]. split; [ exact Hr | ]. split; [ exact Hcalls | ].
  pose proof Hinv as Hc. vm_compute in Hc. inversion Hc. reflexivity.
Defined.

(** ** Collaborators without state *)

Lemma uniform_ret (A : Type) (a : A) : uniform (ret a).
Proof. exists (inr a), []. reflexivity. Qed.

Lemma uniform_raise (A : Type) (e : exn) : uniform (@raise A e).
Proof. exists (inl e), []. reflexivity. Qed.

Lemma uniform_lift (A : Type) (r : exn + A) : uniform (lift r).
Proof. exists r, []. reflexivity. Qed.

Lemma uniform_bind (A B : Type) (m : M A) (f : A -> M B) :
  uniform m -> (forall a, uniform (f a)) -> uniform (bind m f).
Proof.
  intros (r & calls & Hm) Hf. unfold bind.
  destruct r as [ e | a ].
  - exists (inl e), calls. intros t. now rewrite Hm.
  - destruct (Hf a) as (r' & calls' & Hfa).
    exists r', (calls' ++ calls)%list. intros t.
    rewrite Hm, Hfa. now rewrite app_assoc.
Qed.

Lemma uniform_try_except (A : Type) (body : M A) (handler : exn -> M A) :
  uniform body -> (forall e, uniform (handler e)) -> uniform (try_except body handler).
Proof.
  intros (r & calls & Hm) Hh. unfold try_except.
  destruct r as [ e | a ].
  - destruct (Hh e) as (r' & calls' & Hhe).
    exists r', (calls' ++ calls)%list. intros t.
    rewrite Hm, Hhe. now rewrite app_assoc.
  - exists (inr a), calls. intros t. now rewrite Hm.
Qed.

Section Stateless.

Variable W : World.
Hypothesis no_state : stateless W.
Variable cfg : Settings.

Lemma uniform_LLM_invoke (system human : string) : uniform (LLM_invoke W system human).
Proof.
  exists (llm_reply W [] system human), [LLMCall system human].
  intros t. unfold LLM_invoke. destruct no_state as (Hllm & _).
  now rewrite (Hllm t []).
Qed.

Lemma uniform_invoke (self : SerperSearchTool) (q : string) :
  uniform (SerperSearchTool_invoke W self q).
Proof.
  unfold SerperSearchTool_invoke.
  apply uniform_bind.
  - exists (http_reply W [] q (k self)), [SearchCall q (k self)].
    intros t. unfold requests_post. destruct no_state as (_ & Hhttp).
    now rewrite (Hhttp t []).
  - intros resp. apply uniform_bind.
    + unfold raise_for_status.
      destruct ((400 <=? status_code resp) && (status_code resp <? 600))%Z;
        [ apply uniform_raise | apply uniform_ret ].
    + intros _. apply uniform_bind; [ apply uniform_lift | ].
      intros data. apply uniform_lift.
Qed.

Lemma uniform_search_each (qs : list string) :
  forall results, uniform (Pipeline.search_each W cfg results qs).
Proof.
  induction qs as [ | q qs IH ]; intros results; simpl.
  - apply uniform_ret.
  - apply uniform_bind; [ apply uniform_invoke | ]. intros found. apply IH.
Qed.

Lemma uniform_stage (name : string) (f : node_fn) :
  assoc name (nodes (Pipeline.build_graph W cfg)) = Some f ->
  forall s, uniform (f s).
Proof.
  intros Hnode s. simpl in Hnode.
  repeat match type of Hnode with
         | (if ?b then _ else _) = _ => destruct b
         end;
    try discriminate; inversion Hnode; subst f; clear Hnode.
  - unfold Pipeline.query_analyser. apply uniform_try_except.
    + unfold Pipeline.query_analyser_try.
      apply uniform_bind; [ apply uniform_LLM_invoke | ]. intros content.
      apply uniform_bind; [ apply uniform_lift | ]. intros parsed. apply uniform_ret.
    + intros e. apply uniform_ret.
  - unfold Pipeline.search_executor. apply uniform_try_except.
    + unfold Pipeline.search_executor_try.
      apply uniform_bind; [ apply uniform_search_each | ]. intros rs. apply uniform_ret.
    + intros e. apply uniform_ret.
  - unfold Pipeline.content_synthesiser.
    apply uniform_bind; [ apply uniform_lift | ]. intros lines.
    apply uniform_try_except.
    + unfold Pipeline.content_synthesiser_try.
      apply uniform_bind; [ apply uniform_LLM_invoke | ]. intros content.
      apply uniform_bind; [ apply uniform_lift | ]. intros parsed. apply uniform_ret.
    + intros e. apply uniform_ret.
  - unfold Pipeline.follow_up_generator. apply uniform_try_except.
    + unfold Pipeline.follow_up_generator_try.
      apply uniform_bind; [ apply uniform_LLM_invoke | ]. intros content.
      apply uniform_bind; [ apply uniform_lift | ]. intros parsed. apply uniform_ret.
    + intros e. apply uniform_ret.
  - apply uniform_ret.
Qed.

Lemma uniform_run_from (limit : nat) :
  forall name s ups,
    uniform (run_from limit (Pipeline.build_graph W cfg) name s ups).
Proof.
  induction limit as [ | limit IH ]; intros name s ups.
  - apply uniform_raise.
  - cbn [run_from].
    destruct (assoc name (nodes (Pipeline.build_graph W cfg))) as [ f | ] eqn:Hnode;
      [ | apply uniform_raise ].
    apply uniform_bind; [ eapply uniform_stage; eassumption | ].
    intros s'.
    destruct (next_node (Pipeline.build_graph W cfg) name s') as [ e | [ target | ] ].
    + apply uniform_raise.
    + apply IH.
    + apply uniform_ret.
Qed.

Lemma uniform_execute (s : ResearchState) :
  uniform (execute (Pipeline.build_graph W cfg) s).
Proof.
  unfold execute.
  change (entry_point (Pipeline.build_graph W cfg)) with (Some "query_analyser").
  apply uniform_run_from.
Qed.

End Stateless.

(** X12. With collaborators that keep no state, [agents.py] gets from its
    second execution what the first already had: the run makes the calls of
    one execution twice over, in the same order, and reports the same final
    state that a single execution reaches. *)
Theorem agents_repeats_the_same_calls (W : World) (question : string) (t : trace) :
  stateless W ->
  exists final ups calls,
    execute (Agents.build_graph W) (initial_state question) t
    = (inr (final, ups), (calls ++ t)%list)
    /\ Agents.run_research_workflow W question t
       = (inr (report_of final None), (calls ++ calls ++ t)%list).
Proof.
  intros Hstateless.
  destruct (uniform_execute Hstateless Agents.settings (initial_state question))
    as (r & calls & Hex).
  destruct (execute_outcome W Agents.settings (initial_state question) t)
    as (final & ups & t' & Hrun & _).
  fold (Agents.build_graph W) in Hex, Hrun.
  rewrite Hex in Hrun. inversion Hrun as [ [ Hr Ht ] ]. subst r.
  exists final, ups, calls. split; [ apply Hex | ].
  unfold Agents.run_research_workflow, stream, invoke, bind.
  rewrite Hex. simpl. rewrite Hex. reflexivity.
Qed.

Lemma agents_repeats_the_same_calls_witness :
  stateless happy_world
  /\ exists final ups calls,
       execute (Agents.build_graph happy_world) (initial_state "What is photosynthesis?") []
       = (inr (final, ups), (calls ++ [])%list)
       /\ Agents.run_research_workflow happy_world "What is photosynthesis?" []
          = (inr (report_of final None), (calls ++ calls ++ [])%list).
Proof.
  assert (H : stateless happy_world) by (split; reflexivity).
  split; [ exact H | ].
  apply (@agents_repeats_the_same_calls happy_world "What is photosynthesis?" [] H).
Defined.

(** ** The tool's constructor and the script of agents.py *)

(** X13. The search tool can be built exactly when SERPER_API_KEY is set
    to a non-empty string -- an empty key is refused like a missing one, with
    the same ValueError -- and it then keeps the limit it was given and sends
    the key in the X-API-KEY header. *)
Theorem tool_needs_api_key (environ : string -> option string) (limit : Z) :
  ((exists key, environ "SERPER_API_KEY" = Some key /\ key <> "")
   <-> exists tool headers, SerperSearchTool_init environ limit = inr (tool, headers))
  /\ (forall tool headers,
        SerperSearchTool_init environ limit = inr (tool, headers) ->
        k tool = limit /\ assoc "X-API-KEY" headers = environ "SERPER_API_KEY")
  /\ (forall e,
        SerperSearchTool_init environ limit = inl e ->
        e = Exn "ValueError" "SERPER_API_KEY is not set in environment").
Proof.
  unfold SerperSearchTool_init.
  destruct (environ "SERPER_API_KEY") as [ key | ].
  - destruct (String.eqb_spec key "") as [ -> | Hkey ].
    + repeat split.
      * intros (key & H & Hne). inversion H. congruence.
      * intros (tool & headers & H). discriminate.
      * discriminate.
      * discriminate.
      * intros e H. now inversion H.
    + repeat split.
      * intros _. eauto.
      * intros _. eauto.
      * inversion H. reflexivity.
      * inversion H. reflexivity.
      * discriminate.
  - repeat split.
    + intros (key & H & _). discriminate.
    + intros (tool & headers & H). discriminate.
    + discriminate.
    + discriminate.
    + intros e H. now inversion H.
Qed.

Lemma tool_needs_api_key_witness :
  SerperSearchTool_init (fun _ => Some "") 10
  = inl (Exn "ValueError" "SERPER_API_KEY is not set in environment").
Proof.
  destruct (tool_needs_api_key (fun _ => Some "") 10) as (_ & _ & Hfail).
  destruct (SerperSearchTool_init (fun _ => Some "") 10) as [ e | r ] eqn:Hinit.
  - rewrite (Hfail e eq_refl). reflexivity.
  - discriminate Hinit.
Defined.

(** X14. The script of [agents.py]: without an argument it prints the
    usage line and exits with status 1 before anything is called; with
    arguments it runs the workflow on the arguments joined by single spaces
    -- even when that is the empty string -- prints the report and exits with
    status 0, whether or not the report has errors. *)
Theorem script_exit_status (W : World) (argv : list string) (t : trace) :
  (List.length argv < 2 ->
   agents_main W argv t
   = (inr (1%Z, print_text ["Usage: python research_workflow.py <your question>"]), t))
  /\ (2 <= List.length argv ->
      exists report t',
        Agents.run_research_workflow W (String.concat " " (tl argv)) t = (inr report, t')
        /\ agents_main W argv t = (inr (0%Z, print_results report), t')
        /\ original_query report = String.concat " " (tl argv)
        /\ llm_calls (query_system Agents.settings) t'
           = 2 + llm_calls (query_system Agents.settings) t).
Proof.
  unfold agents_main. split; intros Hlen.
  - apply Nat.ltb_lt in Hlen. rewrite Hlen. reflexivity.
  - replace (List.length argv <? 2)%nat with false
      by (symmetry; apply Nat.ltb_ge; exact Hlen).
    destruct (agents_run W (String.concat " " (tl argv)) t)
      as (streamed & t1 & final & t' & Hrun & Hout1 & _ & Hout2).
    exists (report_of final None), t'. split; [ exact Hrun | ].
    split; [ unfold bind; rewrite Hrun; reflexivity | ].
    split.
    + apply run_outcome_final in Hout2 as (_ & Hq & _). exact Hq.
    + apply (run_outcome_calls agents_distinct_systems) in Hout1 as (Hq1 & _).
      apply (run_outcome_calls agents_distinct_systems) in Hout2 as (Hq2 & _).
      rewrite Hq2, Hq1. reflexivity.
Qed.

Lemma script_exit_status_witness :
  exists text t',
    agents_main garbled_world ["research_workflow.py"; "what"; "is"; "photosynthesis"] []
    = (inr (0%Z, text), t')
  /\ agents_main garbled_world ["research_workflow.py"] []
     = (inr (1%Z, print_text ["Usage: python research_workflow.py <your question>"]), []).
Proof.
  destruct (script_exit_status garbled_world
              ["research_workflow.py"; "what"; "is"; "photosynthesis"] [])
    as (_ & Hrun).
  destruct Hrun as (report & t' & _ & Hmain & _); [ simpl; lia | ].
  exists (print_results report), t'. split; [ exact Hmain | ].
  apply (script_exit_status garbled_world ["research_workflow.py"] []).
  simpl. lia.
Defined.

(** ** The Gradio callbacks *)

(** A string of ASCII white space is blank. *)
Lemma is_blank_ascii_spaces (s : string) :
  Forall (fun c => ascii_space (N_of_ascii c) = true) (list_ascii_of_string s) ->
  is_blank s = true.
Proof.
  induction s as [ | c s IH ]; simpl; intros Hall; [ reflexivity | ].
  inversion Hall as [ | c' l Hc Hrest ]; subst. rewrite Hc. now apply IH.
Qed.

(** A string that holds an ASCII character other than white space is not
    blank. *)
Lemma is_blank_visible (c : ascii) :
  (N_of_ascii c < 128)%N ->
  ascii_space (N_of_ascii c) = false ->
  forall n s,
    String.length s <= n ->
    In c (list_ascii_of_string s) ->
    is_blank s = false.
Proof.
  intros Hascii Hvisible.
  induction n as [ | n IH ]; intros s Hlen Hin.
  - destruct s; [ destruct Hin | simpl in Hlen; lia ].
  - destruct s as [ | c1 s1 ]; [ destruct Hin | ].
    simpl in Hlen, Hin. cbn [is_blank].
    destruct (ascii_space (N_of_ascii c1)) eqn:H1.
    { destruct Hin as [ -> | Hin ]; [ congruence | ]. apply IH; [ lia | exact Hin ]. }
    destruct s1 as [ | c2 s2 ]; [ reflexivity | ].
    simpl in Hlen, Hin.
    destruct (two_byte_space (N_of_ascii c1) (N_of_ascii c2)) eqn:H2.
    { unfold two_byte_space in H2.
      apply andb_true_iff in H2 as (Ha & Hb).
      apply N.eqb_eq in Ha. apply orb_true_iff in Hb.
      destruct Hin as [ -> | [ -> | Hin ] ];
        [ lia | destruct Hb as [ Hb | Hb ]; apply N.eqb_eq in Hb; lia | ].
      apply IH; [ lia | exact Hin ]. }
    destruct s2 as [ | c3 s3 ]; [ reflexivity | ].
    simpl in Hlen, Hin.
    destruct (three_byte_space (N_of_ascii c1) (N_of_ascii c2) (N_of_ascii c3)) eqn:H3;
      [ | reflexivity ].
    assert (Hhigh : (128 <= N_of_ascii c1 /\ 128 <= N_of_ascii c2
                     /\ 128 <= N_of_ascii c3)%N).
    { unfold three_byte_space in H3.
      repeat match goal with
             | H : (_ || _)%bool = true |- _ => apply orb_true_iff in H as [ H | H ]
             | H : (_ && _)%bool = true |- _ => apply andb_true_iff in H as (? & H)
             | H : (_ =? _)%N = true |- _ => apply N.eqb_eq in H
             | H : (_ <=? _)%N = true |- _ => apply N.leb_le in H
             end; lia. }
    destruct Hin as [ -> | [ -> | [ -> | Hin ] ] ]; try lia.
    apply IH; [ lia | exact Hin ].
Qed.

(** X15. A query that is empty or white space only is skipped: no
    collaborator is called, the chat history is returned as it was, the
    follow-up section is hidden, and the value returned for the current
    questions is the empty string, not a list. *)
Theorem process_query_skips_blank_queries (W : World) (query : string)
    (history : list (string * string)) (t : trace) :
  is_blank query = true ->
  MainApp.process_query W query history t = (inr (nothing_done history), t).
Proof.
  intros Hblank. unfold MainApp.process_query. rewrite Hblank. reflexivity.
Qed.

Lemma process_query_skips_blank_queries_witness :
  is_blank ("  " ++ nl) = true
  /\ MainApp.process_query happy_world ("  " ++ nl) [("User", "earlier")] []
     = (inr (nothing_done [("User", "earlier")]), []).
Proof.
  split; [ reflexivity | ].
  apply (@process_query_skips_blank_queries happy_world ("  " ++ nl)
           [("User", "earlier")] []).
  reflexivity.
Defined.

(** X16. For any other query [process_query] runs the workflow exactly
    once, on the query as typed, and returns: the text box cleared, the
    history extended by exactly the user's query and the formatted report --
    never by the "An error occurred" message, since the workflow cannot
    raise -- the report's follow-up questions as current questions, and the
    follow-up section shown exactly when there is a follow-up question. *)
Theorem process_query_answers_once (W : World) (query : string)
    (history : list (string * string)) (t : trace) :
  is_blank query = false ->
  exists report out t',
    Main.run_research_workflow W query t = (inr report, t')
    /\ MainApp.process_query W query history t = (inr out, t')
    /\ original_query report = query
    /\ query_input out = ""
    /\ chatbot out
       = (history ++ [("User", query); ("Assistant", format_response report)])%list
    /\ current_questions out = QuestionsList (report_follow_up_questions report)
    /\ (visible (follow_up_section out) = Some true
        <-> report_follow_up_questions report <> [])
    /\ (visible (follow_up_section out) = Some false
        <-> report_follow_up_questions report = [])
    /\ llm_calls (query_system Main.settings) t'
       = 1 + llm_calls (query_system Main.settings) t.
Proof.
  intros Hblank.
  destruct (main_run W query t) as (final & t' & Hrun & _ & Hout).
  exists (report_of final (Some [])).
  assert (Hcalls : llm_calls (query_system Main.settings) t'
                   = 1 + llm_calls (query_system Main.settings) t).
  { apply (run_outcome_calls main_distinct_systems) in Hout as (Hq & _). exact Hq. }
  assert (Hquery : user_query final = query).
  { apply run_outcome_final in Hout as (_ & Hq & _). exact Hq. }
  unfold MainApp.process_query, try_except, bind. rewrite Hblank, Hrun.
  cbn [report_follow_up_questions report_of].
  destruct (follow_up_questions final) as [ | fq fqs ] eqn:Hf.
  - eexists _, t'. split; [ reflexivity | ]. split; [ reflexivity | ].
    cbn. rewrite <- app_assoc.
    repeat split; try assumption; try reflexivity; try discriminate; congruence.
  - eexists _, t'. split; [ reflexivity | ]. split; [ reflexivity | ].
    cbn. rewrite <- app_assoc.
    repeat split; try assumption; try reflexivity; try discriminate; congruence.
Qed.

Lemma process_query_answers_once_witness :
  is_blank "What is photosynthesis?" = false
  /\ exists out t',
       MainApp.process_query happy_world "What is photosynthesis?" [] [] = (inr out, t')
       /\ List.length (chatbot out) = 2
       /\ visible (follow_up_section out) = Some true
       /\ current_questions out = QuestionsList ["f1"; "f2"].
Proof.
  split; [ reflexivity | ].
  destruct (@process_query_answers_once happy_world "What is photosynthesis?" [] []
              eq_refl)
    as (report & out & t' & Hrun & Hout & _ & _ & Hchat & Hcur & Hvis & _).
  assert (Hf : report_follow_up_questions report = ["f1"; "f2"]).
  { pose proof Hrun as Hc. vm_compute in Hc. inversion Hc. reflexivity. }
  exists out, t'. split; [ exact Hout | ].
  split; [ rewrite Hchat; reflexivity | ].
  split; [ apply Hvis; rewrite Hf; discriminate | ].
  rewrite Hcur, Hf. reflexivity.
Defined.

Lemma string_app_assoc (a b c : string) : (a ++ b) ++ c = a ++ (b ++ c).
Proof. induction a as [ | x a IH ]; simpl; [ reflexivity | now rewrite IH ]. Qed.

(** X17. When the run records an error, the answer of [process_query]
    still starts with the summary block; the errors block lists the one
    entry, as ["- <stage>: <message>"], and the follow-up section is hidden
    with no current question. *)
Theorem process_query_reports_the_error (W : World) (query : string)
    (history : list (string * string)) (t : trace) (report : Report) (t' : trace) :
  is_blank query = false ->
  Main.run_research_workflow W query t = (inr report, t') ->
  report_errors report <> [] ->
  exists entry before out,
    report_errors report = [entry]
    /\ format_response report
       = before ++ "### ⚠️ Errors Encountered:" ++ nl ++ "- " ++ entry ++ nl ++ nl
    /\ MainApp.process_query W query history t = (inr out, t')
    /\ chatbot out
       = (history ++ [("User", query); ("Assistant", format_response report)])%list
    /\ visible (follow_up_section out) = Some false
    /\ current_questions out = QuestionsList [].
Proof.
  intros Hblank Hrun Herr.
  destruct (main_run W query t) as (final & t1 & Hrun' & _ & Hout).
  rewrite Hrun in Hrun'. inversion Hrun'; subst report t1. clear Hrun'.
  cbn [report_errors report_of] in Herr.
  pose proof (run_outcome_follow_ups Hout) as (Hnone & _).
  specialize (Hnone Herr).
  assert (Hentry : exists entry, errors final = [entry]).
  { apply run_outcome_final in Hout as (_ & _ & Herrors).
    destruct Herrors as [ He | (stage & e & _ & He) ]; [ simpl in He; congruence | ].
    simpl in He. eauto. }
  destruct Hentry as (entry & He).
  exists entry.
  assert (Htail : error_lines [entry] ++ nl = "- " ++ entry ++ nl ++ nl).
  { cbn [error_lines]. simpl. now rewrite !string_app_assoc. }
  assert (Hformat : exists before,
             format_response (report_of final (Some []))
             = before ++ "### ⚠️ Errors Encountered:" ++ nl ++ "- " ++ entry ++ nl ++ nl).
  { unfold format_response.
    cbn [report_errors report_of report_search_queries report_research_summary].
    rewrite He. cbv beta iota zeta. rewrite Htail. eexists. reflexivity. }
  destruct Hformat as (before & Hformat).
  exists before. eexists.
  split; [ exact He | ]. split; [ exact Hformat | ].
  unfold MainApp.process_query, try_except, bind. rewrite Hblank, Hrun.
  cbn [report_follow_up_questions report_of]. rewrite Hnone.
  split; [ reflexivity | ]. cbn [chatbot follow_up_section current_questions visible].
  rewrite <- app_assoc. repeat split.
Qed.

Lemma process_query_reports_the_error_witness :
  exists entry before out,
    report_errors (report_of (handled "query_analyser" (initial_state "q") ValidationError)
                     (Some []))
    = [entry]
    /\ format_response
         (report_of (handled "query_analyser" (initial_state "q") ValidationError) (Some []))
       = before ++ "### ⚠️ Errors Encountered:" ++ nl ++ "- " ++ entry ++ nl ++ nl
    /\ MainApp.process_query garbled_world "q" [] [] = (inr out, [LLMCall (query_system Main.settings) (Pipeline.query_analyser_prompt garbled_world Main.settings (initial_state "q"))])
    /\ chatbot out
       = ([] ++ [("User", "q");
                 ("Assistant",
                  format_response
                    (report_of (handled "query_analyser" (initial_state "q") ValidationError)
                       (Some [])))])%list
    /\ visible (follow_up_section out) = Some false
    /\ current_questions out = QuestionsList [].
Proof.
  apply (@process_query_reports_the_error garbled_world "q" [] []).
  - reflexivity.
  - reflexivity.
  - simpl. discriminate.
Defined.



